(** * rosbridge_library.internal.publishers

    A shallow embedding of [publishers.py]: the
    [PublisherConsistencyListener] (the consistency buffer), the
    [MultiPublisher] (one shared publication endpoint per topic) and the
    [PublisherManager] (the process-wide registry of endpoints).

    External collaborators are parameters of the model:
    - [ros_loader.get_message_class] is [get_message_class]; a failure of
      the loader is [None] (raised as [LoaderError]);
    - [message_conversion.populate_instance] is [populate_instance]; a
      failure of the conversion is [None] (raised as [ConversionError]);
    - [rostopic.get_topic_type(topic)[0]] and [time.time()] are read from
      the environment [env] given to each call, since the ROS graph and the
      clock change between calls.

    Time is an integer number of microseconds; [timeout] is one second. *)

From Stdlib Require Import ZArith Lia.
From stdpp Require Import base gmap sets list strings.

Open Scope Z_scope.

(** ** Message classes and errors *)

(** A message class as returned by the loader.  [mc_id] is the object
    identity used by Python's [is]; [mc_type_name] is the class attribute
    [_type]; [mc_has_type_attr] says whether the class also has an
    attribute named [type] (genpy classes have one only when the message
    has a field called [type]). *)
Record msgclass := MsgClass {
  mc_id : nat;
  mc_type_name : string;
  mc_has_type_attr : bool
}.

(** The exceptions the module can raise. *)
Inductive error :=
| TopicNotEstablishedException   (* spec: ChannelTypeUnknown *)
| TypeConflictException          (* spec: TypeConflict *)
| LoaderError                    (* spec: UnknownMessageType *)
| ConversionError                (* spec: MalformedMessage *)
| AttributeError                 (* reading a missing class attribute *)
| KeyError.                      (* [self._publishers[topic]] on a missing key *)

(** What a call observes of the outside world. *)
Record env := Env {
  now : Z;                              (* time() *)
  get_topic_type : string -> option string  (* get_topic_type(topic)[0] *)
}.

(** ** PublisherConsistencyListener *)

Definition timeout : Z := 1000000.

Record listener (M : Type) := Listener {
  established_time : Z;
  msg_buffer : list M;
  attached : bool
}.
Arguments Listener {M}.
Arguments established_time {M}.
Arguments msg_buffer {M}.
Arguments attached {M}.

Section Listener.
Context {M : Type}.

(** [attach]: records the creation time, an empty buffer, attached. *)
Definition attach (t : Z) : listener M :=
  Listener t [] true.

(** [detach]: restores the publish method and unhooks the listener. *)
Definition detach (l : listener M) : listener M :=
  Listener (established_time l) (msg_buffer l) false.

Definition timed_out (l : listener M) (t : Z) : bool :=
  timeout <? t - established_time l.

(** [peer_subscribe]: the messages published to the new peer alone. *)
Definition peer_subscribe (l : listener M) (t : Z) : list M :=
  if negb (timed_out l t) then msg_buffer l else [].

(** [publish_override]: the updated listener and the message handed to
    the original publish method. *)
Definition publish_override (l : listener M) (t : Z) (message : M)
  : listener M * M :=
  let l' := if negb (timed_out l t)
            then Listener (established_time l) (msg_buffer l ++ [message])
                          (attached l)
            else l in
  (l', message).

End Listener.

(** ** One publisher with its listener and its connected subscribers

    Each connection carries the messages it has received so far.  A send
    goes through [publisher.publish], which is [publish_override] while the
    listener is attached and the original method once it is detached; the
    original method delivers to every connection.  On a new connection,
    rospy appends it and then calls [peer_subscribe] on the listeners still
    hooked to the publisher, whose [peer_publish] reaches that connection
    alone. *)
Module Buffer.
Section Buffer.
Context {M P : Type}.

Record bstate := BState {
  b_listener : listener M;
  b_peers : list (P * list M)
}.

Inductive event :=
| ESend (t : Z) (m : M)
| EConnect (t : Z) (p : P).

Definition transport_publish (peers : list (P * list M)) (m : M)
  : list (P * list M) :=
  map (fun pi => (pi.1, pi.2 ++ [m])) peers.

Definition bstep (s : bstate) (ev : event) : bstate :=
  match ev with
  | ESend t m =>
      if attached (b_listener s) then
        let '(l', fwd) := publish_override (b_listener s) t m in
        BState l' (transport_publish (b_peers s) fwd)
      else BState (b_listener s) (transport_publish (b_peers s) m)
  | EConnect t p =>
      let replay := if attached (b_listener s)
                    then peer_subscribe (b_listener s) t else [] in
      BState (b_listener s) (b_peers s ++ [(p, replay)])
  end.

Definition brun (s : bstate) (evs : list event) : bstate :=
  fold_left bstep evs s.

(** The messages of the sends of [evs] made while the listener (created
    at [t0]) had not timed out, in order. *)
Definition sent_in_window (t0 : Z) (evs : list event) : list M :=
  flat_map (fun ev => match ev with
                      | ESend t m => if timeout <? t - t0 then [] else [m]
                      | EConnect _ _ => []
                      end) evs.

(** The messages of the sends of [evs], in order. *)
Definition sends (evs : list event) : list M :=
  flat_map (fun ev => match ev with
                      | ESend _ m => [m]
                      | EConnect _ _ => []
                      end) evs.

(** The peers connecting in [evs], in order. *)
Definition connected (evs : list event) : list P :=
  flat_map (fun ev => match ev with
                      | ESend _ _ => []
                      | EConnect _ p => [p]
                      end) evs.

End Buffer.
End Buffer.

(** ** MultiPublisher and PublisherManager *)

Section Registry.
Context {RawMsg Inst : Type}.
Variable get_message_class : string -> option msgclass.
Variable populate_instance : msgclass -> RawMsg -> option Inst.

(** A [MultiPublisher]; [mp_id] is the identity of the object and of its
    rospy [Publisher]. *)
Record multipub := MultiPub {
  mp_id : nat;
  mp_topic : string;
  mp_class : msgclass;
  mp_clients : gset string;
  mp_listener : listener Inst
}.

(** The [PublisherManager] with the part of the world it acts on: the next
    fresh object identity, the publishers unregistered from the master
    (in their state after [unregister()]), and the messages handed to
    rospy publishers, tagged with the publisher. *)
Record state := State {
  publishers : gmap string multipub;
  next_id : nat;
  closed : list multipub;
  sent : list (nat * Inst)
}.

Definition init_state : state := State ∅ 0 [] [].

(** A state and error monad: an exception returns the state at the point
    where it was raised. *)
Definition M (A : Type) : Type := state -> (error + A) * state.

Definition ret {A} (a : A) : M A := fun s => (inr a, s).
Definition throw {A} (e : error) : M A := fun s => (inl e, s).
Definition bind {A B} (m : M A) (f : A -> M B) : M B :=
  fun s => match m s with
           | (inl e, s') => (inl e, s')
           | (inr a, s') => f a s'
           end.

Local Notation "'let!' x := m 'in' k" := (bind m (fun x => k))
  (at level 200, x name, m at level 100, k at level 200).

Definition get_state : M state := fun s => (inr s, s).
Definition put_state (s : state) : M unit := fun _ => (inr tt, s).

Definition set_publishers (s : state) (ps : gmap string multipub) : state :=
  State ps (next_id s) (closed s) (sent s).

(** [self._publishers[topic]] *)
Definition lookup_pub (topic : string) : M multipub :=
  fun s => match publishers s !! topic with
           | Some mp => (inr mp, s)
           | None => (inl KeyError, s)
           end.

(** [self._publishers[topic] = mp] *)
Definition set_pub (topic : string) (mp : multipub) : M unit :=
  fun s => (inr tt, set_publishers s (<[topic := mp]> (publishers s))).

(** A fresh object identity. *)
Definition fresh_id : M nat :=
  fun s => (inr (next_id s), State (publishers s) (S (next_id s)) (closed s) (sent s)).

(** The original rospy publish: the instance goes to the transport. *)
Definition transport_send (pid : nat) (inst : Inst) : M unit :=
  fun s => (inr tt, State (publishers s) (next_id s) (closed s) (sent s ++ [(pid, inst)])).

(** [ros_loader.get_message_class(msg_type)] *)
Definition load_class (msg_type : string) : M msgclass :=
  match get_message_class msg_type with
  | Some c => ret c
  | None => throw LoaderError
  end.

(** [self._publishers[topic] = mp] removed: [del self._publishers[topic]] *)
Definition del_pub (topic : string) : M unit :=
  fun s => (inr tt, set_publishers s (delete topic (publishers s))).

(** [self.publisher.unregister()]: the publisher is closed at the master. *)
Definition close_publisher (mp : multipub) : M unit :=
  fun s => (inr tt, State (publishers s) (next_id s) (closed s ++ [mp]) (sent s)).

Fixpoint for_each (l : list string) (f : string -> M unit) : M unit :=
  match l with
  | [] => ret tt
  | x :: l' => let! _ := f x in for_each l' f
  end.

(** *** MultiPublisher *)

(** The check of [__init__] after loading the class:
    [if topic_type is not None and topic_type != msg_class._type:
       raise TypeConflictException(topic, topic_type, msg_class.type)].
    The arguments of the exception are evaluated first, and
    [msg_class.type] raises [AttributeError] on a class without an
    attribute named [type]. *)
Definition check_established (topic_type : option string) (msg_class : msgclass)
  : M unit :=
  match topic_type with
  | Some est =>
      if bool_decide (est <> mc_type_name msg_class) then
        if mc_has_type_attr msg_class then throw TypeConflictException
        else throw AttributeError
      else ret tt
  | None => ret tt
  end.

(** [MultiPublisher(topic, msg_type)].  [msg_type] becomes [topic_type]
    when it is [None]; both [None] raises [TopicNotEstablishedException]. *)
Definition new_multipublisher (e : env) (topic : string)
  (msg_type : option string) : M multipub :=
  let topic_type := get_topic_type e topic in
  match (match msg_type with None => topic_type | Some t => Some t end) with
  | None => throw TopicNotEstablishedException
  | Some mt =>
      let! msg_class := load_class mt in
      let! _ := check_established topic_type msg_class in
      let! pid := fresh_id in
      ret (MultiPub pid topic msg_class ∅ (attach (now e)))
  end.

Definition with_listener (mp : multipub) (l : listener Inst) : multipub :=
  MultiPub (mp_id mp) (mp_topic mp) (mp_class mp) (mp_clients mp) l.

Definition with_clients (mp : multipub) (cs : gset string) : multipub :=
  MultiPub (mp_id mp) (mp_topic mp) (mp_class mp) cs (mp_listener mp).

(** [unregister]: the publisher is unregistered and the clients cleared. *)
Definition mp_unregister (mp : multipub) : multipub := with_clients mp ∅.

(** [verify_type]: [get_message_class(msg_type) is self.msg_class]. *)
Definition verify_type (mp : multipub) (msg_type : string) : M unit :=
  let! c := load_class msg_type in
  if Nat.eqb (mc_id c) (mc_id (mp_class mp)) then ret tt
  else throw TypeConflictException.

Definition register_client (mp : multipub) (client_id : string) : multipub :=
  with_clients mp ({[client_id]} ∪ mp_clients mp).

Definition unregister_client (mp : multipub) (client_id : string) : multipub :=
  if bool_decide (client_id ∈ mp_clients mp)
  then with_clients mp (mp_clients mp ∖ {[client_id]})
  else mp.

Definition has_clients (mp : multipub) : bool :=
  negb (Nat.eqb (size (mp_clients mp)) 0).

(** [publish] on the MultiPublisher stored under [topic] (the registry
    holds the only reference to it, so its mutations are writes to that
    entry).  [self.publisher.publish] is [publish_override] while the
    listener is attached. *)
Definition mp_publish (e : env) (topic : string) (msg : RawMsg) : M unit :=
  let! mp := lookup_pub topic in
  let! _ := if attached (mp_listener mp) && timed_out (mp_listener mp) (now e)
            then set_pub topic (with_listener mp (detach (mp_listener mp)))
            else ret tt in
  let! mp := lookup_pub topic in
  let! inst := match populate_instance (mp_class mp) msg with
               | Some i => ret i
               | None => throw ConversionError
               end in
  if attached (mp_listener mp) then
    let '(l', fwd) := publish_override (mp_listener mp) (now e) inst in
    let! _ := set_pub topic (with_listener mp l') in
    transport_send (mp_id mp) fwd
  else transport_send (mp_id mp) inst.

(** *** PublisherManager *)

Definition register (e : env) (client_id topic : string)
  (msg_type : option string) : M unit :=
  let! s := get_state in
  let! _ := match publishers s !! topic with
            | None => let! mp := new_multipublisher e topic msg_type in
                      set_pub topic mp
            | Some _ => ret tt
            end in
  let! _ := match msg_type with
            | Some t => let! mp := lookup_pub topic in verify_type mp t
            | None => ret tt
            end in
  let! mp := lookup_pub topic in
  set_pub topic (register_client mp client_id).

Definition unregister (client_id topic : string) : M unit :=
  let! s := get_state in
  match publishers s !! topic with
  | None => ret tt
  | Some _ =>
      let! mp := lookup_pub topic in
      let! _ := set_pub topic (unregister_client mp client_id) in
      let! mp := lookup_pub topic in
      if negb (has_clients mp) then
        let! _ := set_pub topic (mp_unregister mp) in
        let! _ := close_publisher (mp_unregister mp) in
        del_pub topic
      else ret tt
  end.

(** [for topic in self._publishers.keys()]: Python 2 takes a copy of the
    keys before the loop. *)
Definition unregister_all (client_id : string) : M unit :=
  let! s := get_state in
  for_each (map fst (map_to_list (publishers s)))
           (fun topic => unregister client_id topic).

Definition publish (e : env) (client_id topic : string) (msg : RawMsg)
  : M unit :=
  let! _ := register e client_id topic None in
  mp_publish e topic msg.

(** Calls made on the manager, one after another; a caller that gets an
    exception goes on with the state the exception left. *)
Inductive op :=
| OpRegister (e : env) (client_id topic : string) (msg_type : option string)
| OpUnregister (client_id topic : string)
| OpUnregisterAll (client_id : string)
| OpPublish (e : env) (client_id topic : string) (msg : RawMsg).

Definition run_op (o : op) : M unit :=
  match o with
  | OpRegister e c t mt => register e c t mt
  | OpUnregister c t => unregister c t
  | OpUnregisterAll c => unregister_all c
  | OpPublish e c t m => publish e c t m
  end.

Fixpoint exec (ops : list op) (s : state) : state :=
  match ops with
  | [] => s
  | o :: ops' => exec ops' (run_op o s).2
  end.

End Registry.

(** ** A concrete environment

    Message classes as the rosbridge loader returns them: the loader
    normalises redundant slashes, so ["/std_msgs/String"] and
    ["std_msgs//String"] resolve to the same class object as
    ["std_msgs/String"]. *)
Module Demo.

Definition string_cls : msgclass := MsgClass 1 "std_msgs/String" false.
Definition int_cls : msgclass := MsgClass 2 "std_msgs/Int32" false.

Definition loader (s : string) : option msgclass :=
  if bool_decide (s = "std_msgs/String") || bool_decide (s = "/std_msgs/String")
     || bool_decide (s = "std_msgs//String")
  then Some string_cls
  else if bool_decide (s = "std_msgs/Int32") then Some int_cls
  else None.

(** Conversion of a raw message: ["bad"] does not fit any class. *)
Definition populate (c : msgclass) (m : string) : option string :=
  if bool_decide (m = "bad") then None else Some m.

(** No topic is advertised. *)
Definition graph_empty : string -> option string := fun _ => None.

(** [/chatter] is advertised with type [std_msgs/String]. *)
Definition graph_chatter : string -> option string :=
  fun t => if bool_decide (t = "/chatter") then Some "std_msgs/String" else None.

Definition e0 : env := Env 0 graph_empty.
Definition e_chatter : env := Env 0 graph_chatter.
(** Two seconds later: past the one second window. *)
Definition e_late : env := Env 2000000 graph_empty.

(** Client ["A"] has registered on ["/cmd"] with [std_msgs/String]. *)
Definition s_A : @state string :=
  (register loader e0 "A" "/cmd" (Some "std_msgs/String") init_state).2.

Definition mp_A : @multipub string :=
  MultiPub 0 "/cmd" string_cls {["A"]} (attach 0).

(** ["A"] registers on ["/cmd"] and leaves it again. *)
Definition ops_leave : list (@op string) :=
  [OpRegister e0 "A" "/cmd" (Some "std_msgs/String"); OpUnregister "A" "/cmd"].

(** Then ["B"] registers on ["/cmd"] and publishes there. *)
Definition ops_return : list (@op string) :=
  [OpRegister e0 "B" "/cmd" (Some "std_msgs/String"); OpPublish e0 "B" "/cmd" "hi"].

End Demo.

(** ** Predicates used in the statements *)

Section Props.
Context {RawMsg Inst : Type}.

(** The entry of [t] keeps its identity and keeps [y] as a client. *)
Definition keeps (y t : string) (s s' : @state Inst) : Prop :=
  forall mp, publishers s !! t = Some mp -> y ∈ mp_clients mp ->
  exists mp', publishers s' !! t = Some mp' /\ mp_id mp' = mp_id mp /\
              y ∈ mp_clients mp'.

(** The calls that end [y]'s registration on [t]. *)
Definition removes (y t : string) (o : @op RawMsg) : Prop :=
  match o with
  | OpUnregister c t' => c = y /\ t' = t
  | OpUnregisterAll c => c = y
  | _ => False
  end.

(** The calls that register [c] on [t]. *)
Definition adds (c t : string) (o : @op RawMsg) : Prop :=
  match o with
  | OpRegister _ c' t' _ | OpPublish _ c' t' _ => c' = c /\ t' = t
  | _ => False
  end.

(** Every object identity handed out so far is below [next_id]. *)
Definition wf (s : @state Inst) : Prop :=
  map_Forall (fun _ mp => (mp_id mp < next_id s)%nat) (publishers s) /\
  Forall (fun mp => (mp_id mp < next_id s)%nat) (closed s).

(** The invariant the registry keeps: identities below [next_id]; each
    entry is filed under its own topic and has a client; no two entries
    share an identity; no entry is a publisher already unregistered; no
    publisher is unregistered twice. *)
Definition reg_inv (s : @state Inst) : Prop :=
  wf s /\
  (forall t mp, publishers s !! t = Some mp -> mp_topic mp = t /\ mp_clients mp ≠ ∅) /\
  (forall t1 t2 mp1 mp2, publishers s !! t1 = Some mp1 -> publishers s !! t2 = Some mp2 ->
     mp_id mp1 = mp_id mp2 -> t1 = t2) /\
  (forall mpc t mp, mpc ∈ closed s -> publishers s !! t = Some mp ->
     mp_id mpc <> mp_id mp) /\
  NoDup (map mp_id (closed s)).

(** What [unregister(c, t)] leaves of the entry [mp] of [t]: nothing when
    [c] was its only possible client, else [mp] without [c]. *)
Definition unregister_leaves (c : string) (mp : @multipub Inst) : option (@multipub Inst) :=
  if bool_decide (mp_clients mp ⊆ {[c]}) then None
  else Some (with_clients mp (mp_clients mp ∖ {[c]})).

(** [l'] is a later state of the listener [l]: the same creation time, a
    buffer that has only grown, and detached if [l] was. *)
Definition listener_later (l l' : listener Inst) : Prop :=
  established_time l' = established_time l /\
  msg_buffer l `prefix_of` msg_buffer l' /\
  (attached l = false -> attached l' = false).

(** Every entry of [s'] is an entry of [s] under the same topic, with the
    same identity and a later listener, or has a fresh identity. *)
Definition evolves (s s' : @state Inst) : Prop :=
  (next_id s <= next_id s')%nat /\
  forall t mp', publishers s' !! t = Some mp' ->
    (exists mp, publishers s !! t = Some mp /\ mp_id mp' = mp_id mp /\
       listener_later (mp_listener mp) (mp_listener mp')) \/
    (next_id s <= mp_id mp')%nat.

End Props.

(** ** Shape of each operation *)

Section Facts.
Context {RawMsg Inst : Type}.
Variable gmc : string -> option msgclass.
Variable pop : msgclass -> RawMsg -> option Inst.

Ltac unfold_M :=
  unfold bind, ret, throw, get_state, lookup_pub, set_pub, del_pub,
    close_publisher, fresh_id, transport_send, load_class, set_publishers in *.

Lemma new_multipublisher_shape (e : env) (t : string) (mt : option string)
    (s s' : @state Inst) (r : error + multipub) :
  new_multipublisher gmc e t mt s = (r, s') ->
  (exists err, r = inl err /\ s' = s) \/
  (exists c, r = inr (MultiPub (next_id s) t c ∅ (attach (now e))) /\
     s' = State (publishers s) (S (next_id s)) (closed s) (sent s) /\
     (forall ty, mt = Some ty -> gmc ty = Some c)).
Proof.
  unfold new_multipublisher, check_established. unfold_M.
  destruct mt as [ty|]; destruct (get_topic_type e t) as [est|]; simpl;
    try (destruct (gmc _) as [c|] eqn:Hc); simpl;
    repeat case_match; intros; simplify_eq;
    first [ by left; eauto
          | right; eexists; split_and!; [done | done | intros; simplify_eq; done] ].
Qed.

Lemma register_shape (e : env) (c t : string) (mt : option string)
    (s s' : @state Inst) (r : error + unit) :
  register gmc e c t mt s = (r, s') ->
  (exists err, r = inl err /\ s' = s) \/
  (r = inr () /\ exists mp,
     s' = State (<[t := register_client mp c]> (publishers s)) (next_id s')
                (closed s) (sent s) /\
     ((publishers s !! t = Some mp /\ next_id s' = next_id s) \/
      (publishers s !! t = None /\ next_id s' = S (next_id s) /\
       mp = MultiPub (next_id s) t (mp_class mp) ∅ (attach (now e))))).
Proof.
  unfold register, verify_type. unfold_M. unfold_M. simpl.
  destruct (publishers s !! t) as [mp|] eqn:Hl.
  - destruct mt as [ty|]; simpl; rewrite ?Hl; simpl;
      repeat (case_match; simpl in * ); intros; simplify_eq;
      try (by left; eauto);
      right; (split; [done|]); exists mp; simpl; (split; [done|by left]).
  - destruct (new_multipublisher gmc e t mt s) as [r0 s0] eqn:Hn.
    apply new_multipublisher_shape in Hn as [[err [-> ->]]|[cl [-> [-> Hty]]]].
    { intros; simplify_eq. by left; eauto. }
    destruct mt as [ty|]; simpl; rewrite ?lookup_insert_eq; simpl.
    + rewrite (Hty ty eq_refl). simpl. rewrite Nat.eqb_refl. simpl.
      rewrite lookup_insert_eq. intros; simplify_eq. right. split; [done|].
      eexists. simpl. split; [by rewrite insert_insert_eq|]. right. eauto.
    + intros; simplify_eq. right. split; [done|].
      eexists. simpl. split; [by rewrite insert_insert_eq|]. right. eauto.
Qed.

Lemma unregister_shape (c t : string) (s s' : @state Inst) (r : error + unit) :
  unregister c t s = (r, s') ->
  r = inr () /\
  ((publishers s !! t = None /\ s' = s) \/
   (exists mp, publishers s !! t = Some mp /\
      ((has_clients (unregister_client mp c) = true /\
        s' = State (<[t := unregister_client mp c]> (publishers s))
                   (next_id s) (closed s) (sent s)) \/
       (has_clients (unregister_client mp c) = false /\
        s' = State (delete t (publishers s)) (next_id s)
                   (closed s ++ [mp_unregister (unregister_client mp c)])
                   (sent s))))).
Proof.
  unfold unregister. unfold_M. unfold_M. simpl.
  destruct (publishers s !! t) as [mp|] eqn:Hl; simpl.
  - rewrite Hl. simpl. rewrite lookup_insert_eq. simpl.
    destruct (has_clients (unregister_client mp c)) eqn:Hh; simpl;
      intros; simplify_eq; (split; [done|]); right; exists mp; (split; [done|]).
    + by left.
    + right. split; [done|]. by rewrite !delete_insert_eq.
  - intros; simplify_eq. split; [done|]. by left.
Qed.

Lemma for_each_unregister_inv (P : @state Inst -> Prop) (c : string) :
  (forall t s, P s -> P (unregister c t s).2) ->
  forall (ts : list string) s, P s ->
  P (for_each ts (fun t => unregister c t) s).2 /\
  (for_each ts (fun t => unregister c t) s).1 = inr ().
Proof.
  intros Hstep ts. induction ts as [|t ts IH]; intros s Hs; simpl.
  - done.
  - unfold bind. destruct (unregister c t s) as [r s1] eqn:Hu.
    pose proof (unregister_shape _ _ _ _ _ Hu) as [-> _].
    apply IH. specialize (Hstep t s Hs). by rewrite Hu in Hstep.
Qed.

Lemma unregister_all_inv (P : @state Inst -> Prop) (c : string) (s : @state Inst) :
  (forall t s, P s -> P (unregister c t s).2) ->
  P s -> P (unregister_all c s).2 /\ (unregister_all c s).1 = inr ().
Proof.
  intros Hstep Hs. unfold unregister_all, bind, get_state.
  by apply for_each_unregister_inv.
Qed.

Lemma with_listener_same (mp : @multipub Inst) :
  with_listener mp (mp_listener mp) = mp.
Proof. by destruct mp. Qed.

Lemma mp_publish_shape (e : env) (t : string) (msg : RawMsg)
    (s s' : @state Inst) (r : error + unit) (mp : multipub) :
  publishers s !! t = Some mp ->
  mp_publish pop e t msg s = (r, s') ->
  let mp1 := if attached (mp_listener mp) && timed_out (mp_listener mp) (now e)
             then with_listener mp (detach (mp_listener mp)) else mp in
  (pop (mp_class mp) msg = None /\ r = inl ConversionError /\
   s' = State (<[t := mp1]> (publishers s)) (next_id s) (closed s) (sent s)) \/
  (exists inst, pop (mp_class mp) msg = Some inst /\ r = inr () /\
   s' = State (<[t := with_listener mp1
                        (if attached (mp_listener mp1)
                         then (publish_override (mp_listener mp1) (now e) inst).1
                         else mp_listener mp1)]> (publishers s))
              (next_id s) (closed s) (sent s ++ [(mp_id mp, inst)])).
Proof.
  intros Hl. unfold mp_publish. unfold_M. unfold_M. simpl. rewrite Hl. simpl.
  destruct (attached (mp_listener mp) && timed_out (mp_listener mp) (now e)) eqn:Hd;
    simpl.
  - rewrite lookup_insert_eq. simpl.
    destruct (pop (mp_class mp) msg) as [inst|] eqn:Hp; simpl;
      intros; simplify_eq; [right|left]; [exists inst|]; split_and!; try done.
  - rewrite Hl. simpl.
    destruct (pop (mp_class mp) msg) as [inst|] eqn:Hp; simpl.
    + destruct (attached (mp_listener mp)) eqn:Ha; simpl;
        intros; simplify_eq; right; exists inst; split_and!; try done.
      * by rewrite with_listener_same, (insert_id (publishers s) t mp Hl).
    + intros; simplify_eq. left. split_and!; try done.
      by rewrite (insert_id _ t mp Hl); destruct s'.
Qed.

Lemma has_clients_elem (mp : @multipub Inst) (y : string) :
  y ∈ mp_clients mp -> has_clients mp = true.
Proof.
  intros Hy. unfold has_clients. destruct (Nat.eqb_spec (size (mp_clients mp)) 0)
    as [Hz|]; [|done].
  apply size_empty_inv in Hz. set_solver.
Qed.

Lemma has_clients_empty (mp : @multipub Inst) :
  mp_clients mp = ∅ -> has_clients mp = false.
Proof. intros H. unfold has_clients. by rewrite H, size_empty. Qed.

Lemma has_clients_false (mp : @multipub Inst) :
  has_clients mp = false -> mp_clients mp = ∅.
Proof.
  unfold has_clients. destruct (Nat.eqb_spec (size (mp_clients mp)) 0)
    as [Hz|]; [|done].
  intros _. by apply size_empty_inv, leibniz_equiv in Hz.
Qed.

Lemma unregister_client_clients (mp : @multipub Inst) (c : string) :
  mp_clients (unregister_client mp c) = mp_clients mp ∖ {[c]}.
Proof.
  unfold unregister_client. case_bool_decide; [done|].
  apply leibniz_equiv. set_solver.
Qed.

Lemma unregister_client_id (mp : @multipub Inst) (c : string) :
  mp_id (unregister_client mp c) = mp_id mp.
Proof. unfold unregister_client. by case_bool_decide. Qed.

Lemma keeps_refl y t (s : @state Inst) : keeps y t s s.
Proof. intros mp Hl Hy. eauto. Qed.

Lemma keeps_trans y t (s1 s2 s3 : @state Inst) :
  keeps y t s1 s2 -> keeps y t s2 s3 -> keeps y t s1 s3.
Proof.
  intros H12 H23 mp Hl Hy.
  destruct (H12 mp Hl Hy) as (mp2 & Hl2 & Hid2 & Hy2).
  destruct (H23 mp2 Hl2 Hy2) as (mp3 & Hl3 & Hid3 & Hy3).
  exists mp3. split_and!; [done|congruence|done].
Qed.

Lemma register_keeps y t e c t' mt (s : @state Inst) :
  keeps y t s (register gmc e c t' mt s).2.
Proof.
  destruct (register gmc e c t' mt s) as [r s'] eqn:Hr. simpl.
  apply register_shape in Hr
    as [[err [_ ->]]|[_ (mp0 & -> & [[Hl0 _]|[Hl0 _]])]];
    [apply keeps_refl| |];
    intros mp Hl Hy; simpl; (destruct (decide (t' = t)) as [<-|Hne];
    [| exists mp; by rewrite lookup_insert_ne]); simplify_eq.
  eexists. rewrite lookup_insert_eq.
  split_and!; [done|done|]. simpl. set_solver.
Qed.

Lemma unregister_keeps y t c t' (s : @state Inst) :
  ~ (c = y /\ t' = t) -> keeps y t s (unregister c t' s).2.
Proof.
  intros Hnot. destruct (unregister c t' s) as [r s'] eqn:Hu. simpl.
  apply unregister_shape in Hu as [_ [[_ ->]|(mp0 & Hl0 & [[Hh ->]|[Hh ->]])]];
    [apply keeps_refl| |];
    intros mp Hl Hy; simpl; (destruct (decide (t' = t)) as [<-|Hne];
    [| exists mp; by rewrite ?lookup_insert_ne, ?lookup_delete_ne]);
    simplify_eq.
  - eexists. rewrite lookup_insert_eq.
    split; [done|]. rewrite unregister_client_id, unregister_client_clients.
    split; [done|]. set_solver.
  - apply has_clients_false in Hh. rewrite unregister_client_clients in Hh.
    exfalso. set_solver.
Qed.

Lemma mp_publish_keeps y t e t' msg (s : @state Inst) :
  keeps y t s (mp_publish pop e t' msg s).2.
Proof.
  destruct (publishers s !! t') as [mp0|] eqn:Hl0.
  2:{ unfold mp_publish. unfold_M. simpl. rewrite Hl0. apply keeps_refl. }
  destruct (mp_publish pop e t' msg s) as [r s'] eqn:Hp. simpl.
  apply (mp_publish_shape _ _ _ _ _ _ _ Hl0) in Hp as [(_ & _ & ->)|(inst & _ & _ & ->)];
    intros mp Hl Hy; simpl; (destruct (decide (t' = t)) as [<-|Hne];
    [| exists mp; by rewrite lookup_insert_ne]); simplify_eq;
    eexists; rewrite lookup_insert_eq; split_and!; try done;
    repeat case_match; done.
Qed.

Lemma publish_keeps y t e c t' msg (s : @state Inst) :
  keeps y t s (publish gmc pop e c t' msg s).2.
Proof.
  unfold publish, bind.
  pose proof (register_keeps y t e c t' None s) as Hk.
  destruct (register gmc e c t' None s) as [[err|[]] s1]; simpl in *; [done|].
  eapply keeps_trans; [exact Hk|]. apply mp_publish_keeps.
Qed.

Lemma unregister_all_keeps y t c (s : @state Inst) :
  c <> y -> keeps y t s (unregister_all c s).2.
Proof.
  intros Hne.
  apply (unregister_all_inv (keeps y t s) c s); [|apply keeps_refl].
  intros t' s1 H1. eapply keeps_trans; [exact H1|].
  apply unregister_keeps. intros [? _]. done.
Qed.

Lemma exec_keeps y t (ops : list (@op RawMsg)) (s : @state Inst) :
  Forall (fun o => ~ removes y t o) ops -> keeps y t s (exec gmc pop ops s).
Proof.
  revert s. induction ops as [|o ops IH]; intros s Hall; simpl.
  - apply keeps_refl.
  - apply Forall_cons in Hall as [Ho Hall].
    eapply keeps_trans; [|apply IH, Hall].
    destruct o; simpl in Ho; simpl.
    + apply register_keeps.
    + by apply unregister_keeps.
    + by apply unregister_all_keeps.
    + apply publish_keeps.
Qed.

Lemma register_ok e c t mt (s s' : @state Inst) :
  register gmc e c t mt s = (inr (), s') ->
  exists mp, publishers s' !! t = Some mp /\ c ∈ mp_clients mp /\
    forall mp0, publishers s !! t = Some mp0 -> mp_id mp = mp_id mp0.
Proof.
  intros Hr. apply register_shape in Hr
    as [[err [? _]]|[_ (mp0 & -> & [[Hl0 _]|[Hl0 _]])]]; [done| |];
    simpl; eexists; rewrite lookup_insert_eq; split_and!; try done;
    [set_solver| |set_solver|]; intros; simplify_eq; done.
Qed.

(** ** C1: one shared endpoint per topic *)

(** C1.  A successful [register] or [publish] of client [c] on topic [t]
    leaves exactly one MultiPublisher under [t], the same object as before
    if there was one, with [c] among its clients, so [has_clients] is true;
    and once a client [y] is among the clients of the MultiPublisher of
    [t], any sequence of calls (of any clients on any topics) that does not
    unregister [y] from [t] keeps that same object under [t], with [y]
    still a client and [has_clients] true. *)
Theorem C1_one_shared_endpoint_per_topic :
  (forall (o : @op RawMsg) (s : @state Inst) c t,
     adds c t o -> (run_op gmc pop o s).1 = inr () ->
     exists mp, publishers (run_op gmc pop o s).2 !! t = Some mp /\
       c ∈ mp_clients mp /\ has_clients mp = true /\
       forall mp0, publishers s !! t = Some mp0 -> mp_id mp = mp_id mp0) /\
  (forall (ops : list (@op RawMsg)) (s : @state Inst) t y mp,
     publishers s !! t = Some mp -> y ∈ mp_clients mp ->
     Forall (fun o => ~ removes y t o) ops ->
     exists mp', publishers (exec gmc pop ops s) !! t = Some mp' /\
       mp_id mp' = mp_id mp /\ y ∈ mp_clients mp' /\ has_clients mp' = true).
Proof.
  split.
  - intros o s c t Hadd Hok. destruct o as [e c' t' mt| | |e c' t' msg];
      simpl in Hadd; try done; destruct Hadd as [-> ->]; simpl in *.
    + destruct (register gmc e c t mt s) as [r s'] eqn:Hr. simpl in *. subst r.
      destruct (register_ok _ _ _ _ _ _ Hr) as (mp & Hl & Hc & Hid).
      exists mp. split_and!; eauto using has_clients_elem.
    + unfold publish, bind in *.
      destruct (register gmc e c t None s) as [[err|[]] s1] eqn:Hr; [done|].
      destruct (register_ok _ _ _ _ _ _ Hr) as (mp & Hl & Hc & Hid).
      destruct (mp_publish_keeps c t e t msg s1 mp Hl Hc) as (mp' & Hl' & Hid' & Hc').
      exists mp'. split_and!; eauto using has_clients_elem.
      intros mp0 H0. rewrite Hid'. eauto.
  - intros ops s t y mp Hl Hy Hall.
    destruct (exec_keeps y t ops s Hall mp Hl Hy) as (mp' & ? & ? & ?).
    exists mp'. split_and!; eauto using has_clients_elem.
Qed.

Lemma unregister_client_notin (mp : @multipub Inst) (c : string) :
  c ∉ mp_clients mp -> unregister_client mp c = mp.
Proof. intros Hc. unfold unregister_client. by case_bool_decide. Qed.

Lemma unregister_unregister_client (mp : @multipub Inst) (c : string) :
  mp_unregister (unregister_client mp c) = mp_unregister mp.
Proof. unfold unregister_client. by case_bool_decide. Qed.

Lemma register_client_id (mp : @multipub Inst) (c : string) :
  mp_id (register_client mp c) = mp_id mp.
Proof. done. Qed.

(** ** C6: teardown and re-creation *)

(** C6.  When [c] is the only client of the MultiPublisher [mp] of [t],
    [unregister(c, t)] unregisters the publisher with its client set
    cleared and removes [t] from the registry; a later successful
    [register] on [t] creates a new MultiPublisher: an identity never used
    before, only the new client, and a listener attached at the time of
    that call with an empty buffer. *)
Theorem C6_teardown_then_fresh_endpoint :
  forall (s : @state Inst) c t mp,
    wf s -> publishers s !! t = Some mp -> mp_clients mp = {[c]} ->
    let s1 := (unregister c t s).2 in
    publishers s1 = delete t (publishers s) /\
    closed s1 = closed s ++ [mp_unregister mp] /\
    mp_clients (mp_unregister mp) = ∅ /\
    forall e c' mt s2, register gmc e c' t mt s1 = (inr (), s2) ->
      exists mp', publishers s2 !! t = Some mp' /\
        mp_id mp' <> mp_id mp /\
        (forall mpc, mpc ∈ closed s2 -> mp_id mpc <> mp_id mp') /\
        mp_clients mp' = {[c']} /\
        mp_listener mp' = attach (now e).
Proof.
  intros s c t mp [Hwp Hwc] Hl Hc s1.
  assert (Hs1 : s1 = State (delete t (publishers s)) (next_id s)
                       (closed s ++ [mp_unregister mp]) (sent s)).
  { subst s1. destruct (unregister c t s) as [r s'] eqn:Hu. simpl.
    apply unregister_shape in Hu as [_ [[Hn _]|(mp0 & Hl0 & [[Hh _]|[Hh ->]])]];
      rewrite Hl in *; simplify_eq.
    - rewrite has_clients_empty in Hh; [done|].
      rewrite unregister_client_clients, Hc. apply leibniz_equiv. set_solver.
    - by rewrite unregister_unregister_client. }
  rewrite Hs1. simpl. split_and!; [done|done|done|].
  intros e c' mt s2 Hr.
  apply register_shape in Hr
    as [[err [? _]]|[_ (mp0 & Hs2 & [[Hl0 _]|[_ [_ Hmp]]])]];
    [done|simpl in Hl0; by rewrite lookup_delete_eq in Hl0|].
  rewrite Hs2. simpl in *. rewrite Hmp. eexists. rewrite lookup_insert_eq.
  split_and!; try done; simpl.
  - pose proof (Hwp t mp Hl) as Hlt; simpl in Hlt; lia.
  - intros mpc Hin. apply elem_of_app in Hin as [Hin|Hin].
    + eapply Forall_forall in Hwc; [|exact Hin]. simpl. lia.
    + apply list_elem_of_singleton in Hin as ->. simpl.
      pose proof (Hwp t mp Hl) as Hlt; simpl in Hlt; lia.
  - apply leibniz_equiv. set_solver.
Qed.

(** ** C8: unregistering is a silent no-op where there is nothing to do *)

(** C8.  [unregister(c, t)] raises nothing and leaves the state unchanged
    when [t] has no MultiPublisher, and also when [c] is not a client of
    it while it still has clients. *)
Theorem C8_unregister_noop :
  forall c t (s : @state Inst),
    (publishers s !! t = None -> unregister c t s = (inr (), s)) /\
    (forall mp, publishers s !! t = Some mp -> c ∉ mp_clients mp ->
       has_clients mp = true -> unregister c t s = (inr (), s)).
Proof.
  intros c t s. split.
  - intros Hn. destruct (unregister c t s) as [r s'] eqn:Hu.
    apply unregister_shape in Hu as [-> [[_ ->]|(mp0 & Hl0 & _)]]; [done|].
    by rewrite Hn in Hl0.
  - intros mp Hl Hc Hh. destruct (unregister c t s) as [r s'] eqn:Hu.
    apply unregister_shape in Hu as [-> [[Hn _]|(mp0 & Hl0 & [[_ ->]|[Hh' _]])]].
    + congruence.
    + rewrite Hl in Hl0. injection Hl0 as <-.
      rewrite (unregister_client_notin mp c Hc), (insert_id _ t mp Hl).
      by destruct s.
    + rewrite Hl in Hl0. injection Hl0 as <-.
      rewrite (unregister_client_notin mp c Hc) in Hh'. congruence.
Qed.

Lemma register_client_elem (mp : @multipub Inst) (c : string) :
  c ∈ mp_clients mp -> register_client mp c = mp.
Proof using.
  intros Hc. unfold register_client, with_clients. destruct mp as [i tp cl cs l].
  simpl in *. f_equal. apply leibniz_equiv. clear - Hc. set_solver.
Qed.

(** ** C9: client sets carry no multiplicity *)

(** C9.  Registering a client already in the client set leaves the
    MultiPublisher as it is; so after two successful registrations of [c]
    on [t], the second changes nothing, one [unregister(c, t)] removes [c]
    completely, and if [c] was the only client (the topic had no
    MultiPublisher before, or only [c] as client) the MultiPublisher is
    torn down. *)
Theorem C9_register_twice_unregister_once :
  (forall (mp : @multipub Inst) c, c ∈ mp_clients mp -> register_client mp c = mp) /\
  (forall e1 e2 c t mt1 mt2 (s s1 s2 : @state Inst),
     register gmc e1 c t mt1 s = (inr (), s1) ->
     register gmc e2 c t mt2 s1 = (inr (), s2) ->
     publishers s2 = publishers s1 /\
     (forall mp3, publishers (unregister c t s2).2 !! t = Some mp3 ->
        c ∉ mp_clients mp3) /\
     ((forall mp0, publishers s !! t = Some mp0 -> mp_clients mp0 ⊆ {[c]}) ->
        publishers (unregister c t s2).2 !! t = None)).
Proof.
  split; [exact register_client_elem|].
  intros e1 e2 c t mt1 mt2 s s1 s2 H1 H2.
  apply register_shape in H1
    as [[err [? _]]|[_ (mp0 & Hs1 & Hcase)]]; [done|].
  apply register_shape in H2
    as [[err [? _]]|[_ (mp1 & Hs2 & [[Hl1 _]|[Hl1 _]])]]; [done| |];
    rewrite Hs1 in Hl1; simpl in Hl1; rewrite lookup_insert_eq in Hl1; [|done].
  injection Hl1 as <-.
  assert (Hp2 : publishers s2 = publishers s1).
  { rewrite Hs2, Hs1. simpl.
    rewrite register_client_elem; [|simpl; set_solver].
    by rewrite insert_insert_eq. }
  assert (Hl2 : publishers s2 !! t = Some (register_client mp0 c)).
  { rewrite Hp2, Hs1. simpl. by rewrite lookup_insert_eq. }
  destruct (unregister c t s2) as [r s3] eqn:Hu. simpl.
  apply unregister_shape in Hu
    as [_ [[Hn _]|(mp2 & Hl0 & [[Hh ->]|[Hh ->]])]]; [congruence| |];
    rewrite Hl2 in Hl0; injection Hl0 as <-; simpl.
  - split_and!; [done| |].
    + intros mp3. rewrite lookup_insert_eq. intros [= <-].
      rewrite unregister_client_clients. set_solver.
    + intros Hsub. exfalso. rewrite has_clients_empty in Hh; [done|].
      rewrite unregister_client_clients. simpl. apply leibniz_equiv.
      destruct Hcase as [[Hl _]|[Hl [_ Hmp]]].
      * pose proof (Hsub mp0 Hl). set_solver.
      * rewrite Hmp. simpl. set_solver.
  - split_and!; [done| |].
    + intros mp3. by rewrite lookup_delete_eq.
    + intros _. by rewrite lookup_delete_eq.
Qed.

(** [register] on a topic that already has a MultiPublisher. *)
Lemma register_existing e c t mt (s : @state Inst) mp :
  publishers s !! t = Some mp ->
  register gmc e c t mt s =
  match mt with
  | None => (inr (), set_publishers s (<[t := register_client mp c]> (publishers s)))
  | Some ty =>
      match gmc ty with
      | None => (inl LoaderError, s)
      | Some k =>
          if Nat.eqb (mc_id k) (mc_id (mp_class mp))
          then (inr (), set_publishers s (<[t := register_client mp c]> (publishers s)))
          else (inl TypeConflictException, s)
      end
  end.
Proof.
  intros Hl. unfold register, verify_type. unfold_M. unfold_M. simpl.
  rewrite Hl. destruct mt as [ty|]; simpl; rewrite ?Hl; simpl; [|done].
  destruct (gmc ty) as [k|]; simpl; [|done].
  destruct (Nat.eqb _ _); simpl; [by rewrite Hl|done].
Qed.

(** A successful [register] with a type leaves a MultiPublisher whose class
    is the class that type resolves to. *)
Lemma register_typed_ok e c t ty (s s' : @state Inst) :
  register gmc e c t (Some ty) s = (inr (), s') ->
  exists mp k, publishers s' !! t = Some mp /\ c ∈ mp_clients mp /\
    gmc ty = Some k /\ mc_id k = mc_id (mp_class mp).
Proof using gmc.
  destruct (publishers s !! t) as [mp0|] eqn:Hl.
  - rewrite (register_existing _ _ _ _ _ _ Hl).
    destruct (gmc ty) as [k|] eqn:Hk; [|done].
    destruct (Nat.eqb_spec (mc_id k) (mc_id (mp_class mp0))) as [Heq|]; [|done].
    intros [= <-]. exists (register_client mp0 c), k. simpl.
    rewrite lookup_insert_eq. split_and!; try done. simpl. clear. set_solver.
  - intros Hr. pose proof Hr as Hr'.
    apply register_shape in Hr
      as [[err [? _]]|[_ (mp & Hs' & [[Hl0 _]|[_ [_ Hmp]]])]]; [done|congruence|].
    unfold register, verify_type in Hr'. unfold_M. unfold_M. simpl in Hr'.
    rewrite Hl in Hr'.
    destruct (new_multipublisher gmc e t (Some ty) s) as [r0 s0] eqn:Hn.
    apply new_multipublisher_shape in Hn as [[err [-> ->]]|[k [-> [-> Hty]]]];
      [done|].
    exists (register_client (MultiPub (next_id s) t k ∅ (attach (now e))) c), k.
    simpl in Hr'. rewrite lookup_insert_eq in Hr'. simpl in Hr'.
    rewrite (Hty ty eq_refl) in Hr'. simpl in Hr'. rewrite Nat.eqb_refl in Hr'.
    simpl in Hr'. rewrite lookup_insert_eq in Hr'. injection Hr' as <-. simpl.
    rewrite lookup_insert_eq. split_and!; try done; [clear; set_solver|by apply Hty].
Qed.

(** ** C4: type consistency on an existing MultiPublisher *)

(** C4 (amended).  After a successful [register] of [c1] on [t] with type
    [T1], the MultiPublisher of [t] has a class [T1] resolves to (same
    identity), and a second [register] of [c2] on [t] with type [T2]:
    raises [LoaderError] when [T2] does not resolve; raises
    [TypeConflictException] when [T2] resolves to a class of another
    identity; succeeds and adds [c2] when [T2] resolves to the
    MultiPublisher's class (in particular when [T2 = T1]).  Both failures
    leave the state unchanged. *)
Theorem C4_type_consistency :
  forall e1 e2 c1 c2 t T1 T2 (s s1 : @state Inst),
    register gmc e1 c1 t (Some T1) s = (inr (), s1) ->
    exists mp k1, publishers s1 !! t = Some mp /\ gmc T1 = Some k1 /\
      mc_id k1 = mc_id (mp_class mp) /\
      register gmc e2 c2 t (Some T2) s1 =
      match gmc T2 with
      | None => (inl LoaderError, s1)
      | Some k =>
          if Nat.eqb (mc_id k) (mc_id (mp_class mp))
          then (inr (), set_publishers s1 (<[t := register_client mp c2]> (publishers s1)))
          else (inl TypeConflictException, s1)
      end.
Proof.
  intros e1 e2 c1 c2 t T1 T2 s s1 Hr.
  destruct (register_typed_ok _ _ _ _ _ _ Hr) as (mp & k1 & Hl & _ & Hk1 & Hid).
  exists mp, k1. split_and!; try done.
  by rewrite (register_existing _ _ _ _ _ _ Hl).
Qed.

(** ** C10: compatibility is decided on the resolved class *)

(** C10.  Creation compares the established type with the [_type] of the
    class the supplied type resolves to, and [verify_type] compares
    resolved classes by identity: a supplied type string that resolves to
    a class whose [_type] is the established type creates the
    MultiPublisher, whatever its spelling; and on an existing
    MultiPublisher a supplied type string resolving to its class passes
    [verify_type] and [register]. *)
Theorem C10_resolved_type_decides :
  (forall e t T2 k (s : @state Inst),
     gmc T2 = Some k -> get_topic_type e t = Some (mc_type_name k) ->
     new_multipublisher gmc e t (Some T2) s =
     (inr (MultiPub (next_id s) t k ∅ (attach (now e))),
      State (publishers s) (S (next_id s)) (closed s) (sent s))) /\
  (forall (mp : @multipub Inst) T2 k (s : @state Inst),
     gmc T2 = Some k -> mc_id k = mc_id (mp_class mp) ->
     verify_type gmc mp T2 s = (inr (), s)) /\
  (forall e c t T2 k (s : @state Inst) mp,
     publishers s !! t = Some mp -> gmc T2 = Some k ->
     mc_id k = mc_id (mp_class mp) ->
     register gmc e c t (Some T2) s =
     (inr (), set_publishers s (<[t := register_client mp c]> (publishers s)))).
Proof.
  split_and!.
  - intros e t T2 k s Hk Ht. unfold new_multipublisher, check_established.
    unfold_M. unfold_M. rewrite Ht. simpl. rewrite Hk. simpl.
    rewrite bool_decide_false; [done|]. by intros [].
  - intros mp T2 k s Hk Hid. unfold verify_type. unfold_M. unfold_M.
    rewrite Hk. simpl. by rewrite Hid, Nat.eqb_refl.
  - intros e c t T2 k s mp Hl Hk Hid.
    rewrite (register_existing _ _ _ _ _ _ Hl), Hk, Hid. by rewrite Nat.eqb_refl.
Qed.

(** ** C5: creation of a MultiPublisher *)

(** C5 (amended).  With no supplied type, creation raises
    [TopicNotEstablishedException] exactly when the topic has no
    established type.  The type used is the supplied one, else the
    established one; it is resolved first, and a loader failure
    propagates.  With the resolved class [k]: when the topic has an
    established type other than [k]'s [_type], creation raises and builds
    nothing; otherwise it builds a MultiPublisher of class [k] with no
    clients and a freshly attached listener.  (Which exception the
    mismatch raises is left open here.) *)
Theorem C5_creation_type_resolution :
  forall e t (s : @state Inst),
    ((new_multipublisher gmc e t None s).1 = inl TopicNotEstablishedException <->
     get_topic_type e t = None) /\
    (get_topic_type e t = None ->
     new_multipublisher gmc e t None s = (inl TopicNotEstablishedException, s)) /\
    (forall mt ty,
       (mt = Some ty \/ (mt = None /\ get_topic_type e t = Some ty)) ->
       (gmc ty = None -> new_multipublisher gmc e t mt s = (inl LoaderError, s)) /\
       (forall k, gmc ty = Some k ->
          (forall T, get_topic_type e t = Some T -> T <> mc_type_name k ->
             exists err, new_multipublisher gmc e t mt s = (inl err, s)) /\
          ((forall T, get_topic_type e t = Some T -> T = mc_type_name k) ->
             new_multipublisher gmc e t mt s =
             (inr (MultiPub (next_id s) t k ∅ (attach (now e))),
              State (publishers s) (S (next_id s)) (closed s) (sent s))))).
Proof.
  intros e t s. unfold new_multipublisher, check_established.
  unfold_M. unfold_M. split_and!.
  - destruct (get_topic_type e t) as [T|]; simpl; [|tauto].
    split; [|done]. destruct (gmc T) as [k|]; simpl;
      [case_bool_decide; [case_match|]|]; simpl; intros Hx;
      repeat (case_match; simpl in * ); congruence.
  - intros ->. done.
  - intros mt ty Hmt. split.
    + intros Hn. by destruct Hmt as [->|[-> ->]]; rewrite Hn.
    + intros k Hk. split.
      * intros T Ht Hne. destruct Hmt as [->|[-> Hty]]; rewrite ?Ht; simpl;
          [|rewrite Ht in Hty; injection Hty as <-]; rewrite Hk; simpl;
          rewrite bool_decide_true by done; destruct (mc_has_type_attr k); simpl; eauto.
      * intros Heq. destruct Hmt as [->|[-> Hty]]; rewrite ?Hty; simpl; rewrite Hk;
          simpl; destruct (get_topic_type e t) as [T|] eqn:Ht; simpl; try done;
          rewrite bool_decide_false; try done; intros Hn'; apply Hn', Heq; congruence.
Qed.

(** ** C3: the state after a failed call *)

(** C3 (amended).  A [register] that raises leaves the state unchanged.  A
    [publish] that raises either failed in its implicit [register] (state
    unchanged), or failed converting the message: then the implicit
    registration stays (the MultiPublisher may have been created and the
    client added), a timed-out listener has been detached, and nothing
    was sent. *)
Theorem C3_failed_calls :
  (forall e c t mt (s s' : @state Inst) err,
     register gmc e c t mt s = (inl err, s') -> s' = s) /\
  (forall e c t msg (s s' : @state Inst) err,
     publish gmc pop e c t msg s = (inl err, s') ->
     (register gmc e c t None s = (inl err, s) /\ s' = s) \/
     (err = ConversionError /\ exists s1 mp,
        register gmc e c t None s = (inr (), s1) /\
        publishers s1 !! t = Some mp /\ c ∈ mp_clients mp /\
        s' = State (<[t := if attached (mp_listener mp) &&
                              timed_out (mp_listener mp) (now e)
                           then with_listener mp (detach (mp_listener mp))
                           else mp]> (publishers s1))
                   (next_id s1) (closed s1) (sent s1))).
Proof.
  split.
  - intros e c t mt s s' err Hr.
    by apply register_shape in Hr as [[err' [_ ->]]|[? _]].
  - intros e c t msg s s' err. unfold publish, bind.
    destruct (register gmc e c t None s) as [[err'|[]] s1] eqn:Hr.
    + intros [= -> ->]. left.
      pose proof Hr as Hr'.
      apply register_shape in Hr' as [[err'' [_ ->]]|[? _]]; [done|done].
    + intros Hp. right.
      destruct (register_ok _ _ _ _ _ _ Hr) as (mp & Hl & Hc & _).
      pose proof (mp_publish_shape _ _ _ _ _ _ _ Hl Hp) as Hsh.
      cbv zeta in Hsh.
      destruct Hsh as [(_ & Herr & Hs')|(inst & _ & ? & _)]; [|done].
      injection Herr as <-. split; [done|]. exists s1, mp. done.
Qed.

(** ** C7: detachment happens on the publish path only *)

(** Every entry after [unregister] is an entry of before with the same
    listener. *)
Lemma unregister_listeners c t (s : @state Inst) t' mp' :
  publishers (unregister c t s).2 !! t' = Some mp' ->
  exists mp, publishers s !! t' = Some mp /\ mp_listener mp' = mp_listener mp.
Proof.
  destruct (unregister c t s) as [r s1] eqn:Hu. simpl.
  apply unregister_shape in Hu as [_ [[_ ->]|(mp0 & Hl0 & [[_ ->]|[_ ->]])]];
    simpl; [eauto| |].
  - destruct (decide (t = t')) as [<-|Hne].
    + rewrite lookup_insert_eq. intros [= <-]. exists mp0. split; [done|].
      unfold unregister_client. by case_bool_decide.
    + rewrite lookup_insert_ne by done. eauto.
  - destruct (decide (t = t')) as [<-|Hne].
    + by rewrite lookup_delete_eq.
    + rewrite lookup_delete_ne by done. eauto.
Qed.

(** C7.  A [publish] on a MultiPublisher whose listener is attached and
    timed out detaches the listener first (buffer kept, attached flag
    cleared) and a successful publish then hands the converted message to
    the publisher directly, without buffering it.  A new connection seen
    after the timeout changes neither the listener nor the existing
    connections and replays nothing.  [register], [unregister] and
    [unregister_all] never change the listener of an entry (a new entry of
    [register] gets a freshly attached one). *)
Theorem C7_detach_on_publish_only :
  (forall e t msg (s : @state Inst) mp,
     publishers s !! t = Some mp -> attached (mp_listener mp) = true ->
     timed_out (mp_listener mp) (now e) = true ->
     exists mp', publishers (mp_publish pop e t msg s).2 !! t = Some mp' /\
       mp_id mp' = mp_id mp /\
       mp_listener mp' = detach (mp_listener mp) /\
       ((mp_publish pop e t msg s).1 = inr () ->
        exists inst, pop (mp_class mp) msg = Some inst /\
          sent (mp_publish pop e t msg s).2 = sent s ++ [(mp_id mp, inst)])) /\
  (forall (bs : @Buffer.bstate Inst string) t p,
     timed_out (Buffer.b_listener bs) t = true ->
     Buffer.bstep bs (Buffer.EConnect t p) =
     Buffer.BState (Buffer.b_listener bs) (Buffer.b_peers bs ++ [(p, [])])) /\
  (forall c t (s : @state Inst) t' mp',
     publishers (unregister c t s).2 !! t' = Some mp' ->
     exists mp, publishers s !! t' = Some mp /\ mp_listener mp' = mp_listener mp) /\
  (forall c (s : @state Inst) t' mp',
     publishers (unregister_all c s).2 !! t' = Some mp' ->
     exists mp, publishers s !! t' = Some mp /\ mp_listener mp' = mp_listener mp) /\
  (forall e c t mt (s : @state Inst) t' mp',
     publishers (register gmc e c t mt s).2 !! t' = Some mp' ->
     (exists mp, publishers s !! t' = Some mp /\ mp_listener mp' = mp_listener mp) \/
     (publishers s !! t' = None /\ mp_listener mp' = attach (now e))).
Proof.
  split_and!.
  - intros e t msg s mp Hl Ha Ht.
    destruct (mp_publish pop e t msg s) as [r s'] eqn:Hp. simpl.
    pose proof (mp_publish_shape _ _ _ _ _ _ _ Hl Hp) as Hsh. cbv zeta in Hsh.
    rewrite Ha, Ht in Hsh. simpl in Hsh.
    destruct Hsh as [(_ & -> & ->)|(inst & Hi & -> & ->)]; simpl;
      rewrite lookup_insert_eq; eexists; split_and!; try done.
    intros _. eauto.
  - intros [l peers] t p Ht. simpl in *. unfold peer_subscribe.
    rewrite Ht. simpl. by destruct (attached l).
  - apply unregister_listeners.
  - intros c s t' mp'.
    set (P := fun s1 : @state Inst => forall t' mp',
           publishers s1 !! t' = Some mp' ->
           exists mp, publishers s !! t' = Some mp /\ mp_listener mp' = mp_listener mp).
    assert (HP : P (unregister_all c s).2).
    { apply unregister_all_inv; [|by intros ? ? ?; eauto].
      intros t s1 H1 t1 mp1 Hl1.
      destruct (unregister_listeners _ _ _ _ _ Hl1) as (mp2 & Hl2 & ->).
      apply (H1 t1 mp2 Hl2). }
    apply HP.
  - intros e c t mt s t' mp'.
    destruct (register gmc e c t mt s) as [r s'] eqn:Hr. simpl.
    apply register_shape in Hr
      as [[err [_ ->]]|[_ (mp0 & -> & Hcase)]]; simpl; [eauto|].
    destruct (decide (t = t')) as [<-|Hne].
    + rewrite lookup_insert_eq. intros [= <-].
      destruct Hcase as [[Hl0 _]|[Hl0 [_ ->]]]; [left; eauto|right; eauto].
    + rewrite lookup_insert_ne by done. eauto.
Qed.

End Facts.

(** ** C2: the buffering window *)

Section BufferFacts.
Context {Msg Peer : Type}.

Lemma bstep_listener (t0 : Z) (buf : list Msg) (ev : @Buffer.event Msg Peer)
    (s : @Buffer.bstate Msg Peer) :
  Buffer.b_listener s = Listener t0 buf true ->
  Buffer.b_listener (Buffer.bstep s ev) =
  Listener t0 (buf ++ Buffer.sent_in_window t0 [ev]) true.
Proof.
  intros Hs. destruct ev as [t m|t p]; simpl; rewrite Hs; simpl;
    rewrite ?app_nil_r; [|done].
  unfold timed_out; simpl. destruct (timeout <? t - t0); simpl; by rewrite ?app_nil_r.
Qed.

Lemma brun_listener (t0 : Z) (evs : list (@Buffer.event Msg Peer))
    (buf : list Msg) (s : @Buffer.bstate Msg Peer) :
  Buffer.b_listener s = Listener t0 buf true ->
  Buffer.b_listener (Buffer.brun s evs) =
  Listener t0 (buf ++ Buffer.sent_in_window t0 evs) true.
Proof.
  revert buf s. induction evs as [|ev evs IH]; intros buf s Hs.
  - by rewrite app_nil_r.
  - change (Buffer.brun s (ev :: evs)) with (Buffer.brun (Buffer.bstep s ev) evs).
    rewrite (IH _ _ (bstep_listener t0 buf ev s Hs)).
    unfold Buffer.sent_in_window. simpl. by rewrite app_nil_r, app_assoc.
Qed.

(** C2.  While the listener is attached: a send buffers the message when
    [timed_out()] is false (and only then) and always forwards it to every
    connected subscriber; a new connection gets the buffer, in order, when
    [timed_out()] is false and nothing otherwise, and no other connection
    receives anything.  Over any sequence of sends and connections from a
    fresh [attach(t0)], the buffer is exactly the messages sent while not
    timed out, in send order; so a message sent after the window is never
    replayed. *)
Theorem C2_buffering_window :
  (forall (s : @Buffer.bstate Msg Peer) t m,
     attached (Buffer.b_listener s) = true ->
     Buffer.bstep s (Buffer.ESend t m) =
     Buffer.BState
       (Listener (established_time (Buffer.b_listener s))
          (msg_buffer (Buffer.b_listener s) ++
           (if timed_out (Buffer.b_listener s) t then [] else [m])) true)
       (Buffer.transport_publish (Buffer.b_peers s) m)) /\
  (forall (s : @Buffer.bstate Msg Peer) t p,
     attached (Buffer.b_listener s) = true ->
     Buffer.bstep s (Buffer.EConnect t p) =
     Buffer.BState (Buffer.b_listener s)
       (Buffer.b_peers s ++
        [(p, if timed_out (Buffer.b_listener s) t then []
             else msg_buffer (Buffer.b_listener s))])) /\
  (forall t0 (peers : list (Peer * list Msg)) (evs : list (@Buffer.event Msg Peer)),
     Buffer.b_listener (Buffer.brun (Buffer.BState (attach t0) peers) evs) =
     Listener t0 (Buffer.sent_in_window t0 evs) true).
Proof.
  split_and!.
  - intros [[t0 buf att] peers] t m Ha; simpl in *; subst att.
    unfold publish_override, timed_out; simpl.
    destruct (timeout <? t - t0); simpl; by rewrite ?app_nil_r.
  - intros [[t0 buf att] peers] t p Ha; simpl in *; subst att.
    unfold peer_subscribe, timed_out; simpl.
    destruct (timeout <? t - t0); simpl; by rewrite ?app_nil_r.
  - intros t0 peers evs. by rewrite (brun_listener t0 evs []).
Qed.

End BufferFacts.

(** ** Further properties of the registry *)

Section ExtraMP.
Context {Inst : Type}.

Lemma with_clients_same (mp : @multipub Inst) : with_clients mp (mp_clients mp) = mp.
Proof. by destruct mp. Qed.

Lemma unregister_client_with (mp : @multipub Inst) (c : string) :
  unregister_client mp c = with_clients mp (mp_clients mp ∖ {[c]}).
Proof.
  unfold unregister_client. case_bool_decide as Hc; [done|].
  destruct mp as [i tp cl cs l]. unfold with_clients. simpl in *. f_equal.
  apply leibniz_equiv. set_solver.
Qed.

Lemma clients_unregister_client (mp : @multipub Inst) (c : string) :
  mp_clients (unregister_client mp c) = mp_clients mp ∖ {[c]}.
Proof. by rewrite unregister_client_with. Qed.

Lemma has_clients_true (mp : @multipub Inst) :
  has_clients mp = true <-> mp_clients mp ≠ ∅.
Proof.
  split.
  - intros Hh He. by rewrite has_clients_empty in Hh.
  - intros Hne. destruct (has_clients mp) eqn:Hh; [done|].
    by apply has_clients_false in Hh.
Qed.

Lemma mp_unregister_unregister_client (mp : @multipub Inst) (c : string) :
  mp_unregister (unregister_client mp c) = with_clients mp ∅.
Proof. unfold mp_unregister, unregister_client. by case_bool_decide. Qed.

Lemma has_clients_unregister_client (mp : @multipub Inst) (c : string) :
  has_clients (unregister_client mp c) = negb (bool_decide (mp_clients mp ⊆ {[c]})).
Proof.
  destruct (has_clients (unregister_client mp c)) eqn:Hh;
    case_bool_decide as Hs; try done.
  - rewrite has_clients_empty in Hh; [done|].
    rewrite clients_unregister_client. apply leibniz_equiv. set_solver.
  - apply has_clients_false in Hh. rewrite clients_unregister_client in Hh.
    exfalso. apply Hs. intros x Hx. destruct (decide (x = c)) as [->|Hne];
      [set_solver|].
    assert (Hx' : x ∈ mp_clients mp ∖ {[c]}) by set_solver.
    rewrite Hh in Hx'. set_solver.
Qed.

Lemma unregister_client_listener (mp : @multipub Inst) (c : string) :
  mp_listener (unregister_client mp c) = mp_listener mp.
Proof. unfold unregister_client. by case_bool_decide. Qed.

Lemma unregister_client_topic (mp : @multipub Inst) (c : string) :
  mp_topic (unregister_client mp c) = mp_topic mp.
Proof. unfold unregister_client. by case_bool_decide. Qed.

Lemma unregister_leaves_unregister_client (mp : @multipub Inst) (c : string) :
  unregister_leaves c mp =
  if has_clients (unregister_client mp c) then Some (unregister_client mp c) else None.
Proof.
  unfold unregister_leaves. rewrite has_clients_unregister_client.
  case_bool_decide; simpl; [done|]. by rewrite unregister_client_with.
Qed.

Lemma list_map_fmap {A B} (f : A -> B) (l : list A) : map f l = f <$> l.
Proof. induction l as [|x l IH]; simpl; [done|]. by rewrite IH. Qed.

End ExtraMP.

Section ExtraFacts.
Context {Inst : Type}.

Ltac unfold_M :=
  unfold bind, ret, throw, get_state, lookup_pub, set_pub, del_pub,
    close_publisher, fresh_id, transport_send, load_class, set_publishers in *.

(** [unregister], entry by entry. *)
Lemma unregister_effect c t (s : @state Inst) :
  (unregister c t s).1 = inr () /\
  next_id (unregister c t s).2 = next_id s /\
  sent (unregister c t s).2 = sent s /\
  (forall k, publishers (unregister c t s).2 !! k =
     if bool_decide (k = t) then publishers s !! t ≫= unregister_leaves c
     else publishers s !! k) /\
  closed (unregister c t s).2 =
    closed s ++ match publishers s !! t with
                | Some mp => if bool_decide (mp_clients mp ⊆ {[c]})
                             then [with_clients mp ∅] else []
                | None => []
                end.
Proof.
  destruct (unregister c t s) as [r s'] eqn:Hu. simpl.
  apply unregister_shape in Hu as [-> [[Hn ->]|(mp & Hl & [[Hh ->]|[Hh ->]])]];
    cbn [fst snd closed sent next_id publishers].
  - rewrite Hn, app_nil_r. split_and!; try done.
    intros k. destruct (decide (k = t)) as [->|Hk];
      [rewrite bool_decide_true, Hn by done|rewrite bool_decide_false by done]; done.
  - rewrite Hl. rewrite has_clients_unregister_client in Hh.
    destruct (bool_decide (mp_clients mp ⊆ {[c]})) eqn:Hb; [done|].
    rewrite app_nil_r. split_and!; try done.
    intros k. destruct (decide (k = t)) as [->|Hk];
      [rewrite bool_decide_true by done
      |rewrite bool_decide_false by done; by rewrite lookup_insert_ne by congruence].
    rewrite lookup_insert_eq. simpl.
    by rewrite unregister_leaves_unregister_client, has_clients_unregister_client, Hb.
  - rewrite Hl. rewrite has_clients_unregister_client in Hh.
    destruct (bool_decide (mp_clients mp ⊆ {[c]})) eqn:Hb; [|done].
    rewrite mp_unregister_unregister_client. split_and!; try done.
    intros k. destruct (decide (k = t)) as [->|Hk];
      [rewrite bool_decide_true by done
      |rewrite bool_decide_false by done; by rewrite lookup_delete_ne by congruence].
    rewrite lookup_delete_eq. simpl.
    by rewrite unregister_leaves_unregister_client, has_clients_unregister_client, Hb.
Qed.

Lemma for_each_unregister_effect c (ts : list string) (s : @state Inst) :
  NoDup ts ->
  next_id (for_each ts (fun t => unregister c t) s).2 = next_id s /\
  sent (for_each ts (fun t => unregister c t) s).2 = sent s /\
  (forall k, publishers (for_each ts (fun t => unregister c t) s).2 !! k =
     if bool_decide (k ∈ ts) then publishers s !! k ≫= unregister_leaves c
     else publishers s !! k) /\
  (forall mpc, mpc ∈ closed (for_each ts (fun t => unregister c t) s).2 <->
     mpc ∈ closed s \/
     exists k mp, k ∈ ts /\ publishers s !! k = Some mp /\
       mp_clients mp ⊆ {[c]} /\ mpc = with_clients mp ∅).
Proof.
  revert s. induction ts as [|t ts IH]; intros s Hnd; cbn [for_each].
  - unfold ret. cbn [fst snd]. split_and!; try done.
    intros mpc. split; [by left|]. intros [?|(k & mp & Hk & _)]; [done|].
    by apply not_elem_of_nil in Hk.
  - apply NoDup_cons in Hnd as [Hnin Hnd]. unfold bind.
    destruct (unregister_effect c t s) as (Hr & Hn & Hs & Hp & Hc).
    destruct (unregister c t s) as [r s1] eqn:Hu. cbn [fst snd] in *. subst r.
    destruct (IH s1 Hnd) as (Hn' & Hs' & Hp' & Hc').
    split_and!; [congruence|congruence| |].
    + intros k. rewrite Hp'. rewrite Hp.
      destruct (decide (k = t)) as [->|Hne].
      * rewrite (bool_decide_false (t ∈ ts)) by done.
        rewrite bool_decide_true by done. rewrite bool_decide_true by set_solver.
        done.
      * rewrite (bool_decide_false (k = t)) by done.
        destruct (decide (k ∈ ts)) as [Hk|Hk].
        -- rewrite !bool_decide_true by set_solver. done.
        -- rewrite !bool_decide_false by set_solver. done.
    + intros mpc. rewrite Hc', Hc. rewrite elem_of_app. split.
      * intros [[Hin|Hin]|(k & mp & Hk & Hl & Hsub & ->)].
        -- by left.
        -- right. destruct (publishers s !! t) as [mp|] eqn:Hl; [|set_solver].
           case_bool_decide as Hsub; [|set_solver].
           apply list_elem_of_singleton in Hin as ->.
           exists t, mp. split_and!; try done. set_solver.
        -- right. exists k, mp. rewrite Hp in Hl.
           rewrite bool_decide_false in Hl by (intros ->; done).
           split_and!; try done. set_solver.
      * intros [Hin|(k & mp & Hk & Hl & Hsub & ->)]; [by left; left|].
        apply elem_of_cons in Hk as [->|Hk].
        -- left; right. rewrite Hl. rewrite bool_decide_true by done. set_solver.
        -- right. exists k, mp. rewrite Hp.
           rewrite bool_decide_false by (intros ->; done). done.
Qed.

(** X2.  [unregister(c, t)] never raises, creates nothing and sends
    nothing; it changes no topic but [t]; when [t] has no MultiPublisher
    it changes nothing; otherwise it removes [c] from the clients of [t]'s
    MultiPublisher [mp] and, when [mp] is left without clients (its
    clients were at most [c]), removes the entry and unregisters [mp],
    its client set cleared. *)
Theorem X2_unregister_effect : forall c t (s : @state Inst),
  let s' := (unregister c t s).2 in
  (unregister c t s).1 = inr () /\ next_id s' = next_id s /\ sent s' = sent s /\
  (forall k, k <> t -> publishers s' !! k = publishers s !! k) /\
  (publishers s !! t = None -> s' = s) /\
  (forall mp, publishers s !! t = Some mp ->
     (mp_clients mp ⊆ {[c]} ->
        publishers s' !! t = None /\ closed s' = closed s ++ [with_clients mp ∅]) /\
     (~ mp_clients mp ⊆ {[c]} ->
        publishers s' !! t = Some (with_clients mp (mp_clients mp ∖ {[c]})) /\
        closed s' = closed s)).
Proof.
  intros c t s s'. subst s'.
  destruct (unregister_effect c t s) as (Hr & Hn & Hs & Hp & Hc).
  split_and!; try done.
  - intros k Hk. rewrite Hp. by rewrite bool_decide_false.
  - intros Hl. destruct (unregister c t s) as [r s'] eqn:Hu. simpl.
    apply unregister_shape in Hu as [_ [[_ ->]|(mp & Hl' & _)]]; [done|congruence].
  - intros mp Hl. rewrite Hp, bool_decide_true, Hl, Hc, Hl by done. simpl.
    unfold unregister_leaves. split; intros Hsub.
    + by rewrite !bool_decide_true.
    + by rewrite !bool_decide_false, app_nil_r.
Qed.

(** X1.  [unregister_all(c)] never raises, creates nothing and sends
    nothing.  It acts on every topic as [unregister(c, t)] does: an entry
    whose clients were at most [c] is removed and its MultiPublisher
    unregistered with its client set cleared; any other entry loses [c];
    and these are the only publishers it unregisters. *)
Theorem X1_unregister_all_effect : forall c (s : @state Inst),
  let s' := (unregister_all c s).2 in
  (unregister_all c s).1 = inr () /\ next_id s' = next_id s /\ sent s' = sent s /\
  (forall t, publishers s' !! t = publishers s !! t ≫= unregister_leaves c) /\
  (forall mpc, mpc ∈ closed s' <-> mpc ∈ closed s \/
     exists t mp, publishers s !! t = Some mp /\ mp_clients mp ⊆ {[c]} /\
       mpc = with_clients mp ∅).
Proof.
  intros c s s'. subst s'.
  assert (Hkeys : forall k, is_Some (publishers s !! k) ->
            k ∈ map fst (map_to_list (publishers s))).
  { intros k [mp Hl]. rewrite list_map_fmap. apply list_elem_of_fmap.
    exists (k, mp). split; [done|]. by apply elem_of_map_to_list. }
  assert (Hnd : NoDup (map fst (map_to_list (publishers s)))).
  { rewrite list_map_fmap. apply NoDup_fst_map_to_list. }
  destruct (for_each_unregister_effect c _ s Hnd) as (Hn & Hs & Hp & Hc).
  split_and!.
  - by apply (unregister_all_inv (fun _ => True)).
  - exact Hn.
  - exact Hs.
  - intros t. unfold unregister_all, bind, get_state. rewrite Hp.
    case_bool_decide as Hin; [done|].
    destruct (publishers s !! t) eqn:Hl; [|done].
    exfalso. apply Hin, Hkeys. by rewrite Hl.
  - intros mpc. unfold unregister_all, bind, get_state. rewrite Hc.
    split; intros [Hin|(k & mp & Hk & Hl & Hsub)]; try (by left);
      right; exists k, mp; try done.
    split; [|done]. apply Hkeys. by rewrite Hk.
Qed.

End ExtraFacts.

Section ExtraCalls.
Context {RawMsg Inst : Type}.
Variable gmc : string -> option msgclass.
Variable pop : msgclass -> RawMsg -> option Inst.

Ltac unfold_M :=
  unfold bind, ret, throw, get_state, lookup_pub, set_pub, del_pub,
    close_publisher, fresh_id, transport_send, load_class, set_publishers in *.

(** X3.  On a topic that already has a MultiPublisher, [register] without
    a type always succeeds, whatever the ROS graph, the loader and the
    clock say: it only adds the client to that MultiPublisher. *)
Theorem X3_register_existing_untyped : forall e c t (s : @state Inst) mp,
  publishers s !! t = Some mp ->
  register gmc e c t None s =
  (inr (), State (<[t := with_clients mp ({[c]} ∪ mp_clients mp)]> (publishers s))
                 (next_id s) (closed s) (sent s)).
Proof.
  intros e c t s mp Hl. by rewrite (register_existing gmc e c t None s mp Hl).
Qed.

(** X4.  Registering a client that was not a client of the topic's
    MultiPublisher (or on a topic without one), then unregistering it,
    gives back the registry's map of topics, provided the MultiPublisher
    already there had a client. *)
Theorem X4_register_unregister_roundtrip : forall e c t mt (s s1 : @state Inst),
  (forall mp, publishers s !! t = Some mp -> (c ∉ mp_clients mp) /\ (mp_clients mp ≠ ∅)) ->
  register gmc e c t mt s = (inr (), s1) ->
  publishers (unregister c t s1).2 = publishers s.
Proof.
  intros e c t mt s s1 Hpre Hr.
  apply register_shape in Hr as [[err [? _]]|[_ (mp & Hs1 & Hcase)]]; [done|].
  destruct (unregister_effect c t s1) as (_ & _ & _ & Hp & _).
  apply map_eq. intros k. rewrite Hp. rewrite Hs1. cbn [publishers].
  destruct (decide (k = t)) as [->|Hk].
  - rewrite bool_decide_true by done. rewrite lookup_insert_eq. simpl.
    unfold unregister_leaves, register_client. simpl.
    destruct Hcase as [[Hl _]|[Hl [_ Hmp]]]; rewrite Hl.
    + destruct (Hpre mp Hl) as [Hc Hne].
      rewrite bool_decide_false.
      * f_equal. destruct mp as [i tp cl cs l]. unfold with_clients. simpl in *.
        f_equal. apply leibniz_equiv. clear pop; set_solver.
      * intros Hsub. apply Hne. apply leibniz_equiv. clear pop; set_solver.
    + rewrite Hmp. simpl. rewrite bool_decide_true; [done|]. clear pop; set_solver.
  - rewrite bool_decide_false by done. by rewrite lookup_insert_ne by congruence.
Qed.

(** X5.  A [publish] that succeeds has made [c] a client of the topic's
    MultiPublisher, has unregistered nothing, and has handed exactly one
    message to the transport: the raw message converted to that
    MultiPublisher's class, tagged with that MultiPublisher. *)
Theorem X5_publish_success : forall e c t msg (s s' : @state Inst),
  publish gmc pop e c t msg s = (inr (), s') ->
  exists mp inst, publishers s' !! t = Some mp /\ c ∈ mp_clients mp /\
    pop (mp_class mp) msg = Some inst /\
    sent s' = sent s ++ [(mp_id mp, inst)] /\ closed s' = closed s.
Proof.
  intros e c t msg s s' Hp. unfold publish, bind in Hp.
  destruct (register gmc e c t None s) as [[err|[]] s1] eqn:Hr; [done|].
  pose proof Hr as Hr'.
  apply register_shape in Hr' as [[err [? _]]|[_ (mp0 & Hs1 & _)]]; [done|].
  destruct (register_ok gmc _ _ _ _ _ _ Hr) as (mp & Hl & Hc & _).
  pose proof (mp_publish_shape pop _ _ _ _ _ _ _ Hl Hp) as Hsh. cbv zeta in Hsh.
  destruct Hsh as [(_ & ? & _)|(inst & Hi & _ & ->)]; [done|].
  eexists _, inst. cbn [publishers sent closed]. rewrite lookup_insert_eq.
  split_and!; [done| | | |].
  - by destruct (attached (mp_listener mp) && timed_out (mp_listener mp) (now e)).
  - by destruct (attached (mp_listener mp) && timed_out (mp_listener mp) (now e)).
  - rewrite Hs1. simpl.
    by destruct (attached (mp_listener mp) && timed_out (mp_listener mp) (now e)).
  - by rewrite Hs1.
Qed.

(** X6.  The dictionary lookups [self._publishers[topic]] of [register]
    and [publish] never fail: neither raises [KeyError].  [register] never
    raises a conversion error, and raises [TopicNotEstablishedException]
    only when called without a type on a topic that has no MultiPublisher
    and no established type. *)
Theorem X6_error_kinds :
  (forall e c t mt (s s' : @state Inst) err,
     register gmc e c t mt s = (inl err, s') ->
     err <> KeyError /\ err <> ConversionError /\
     (err = TopicNotEstablishedException ->
        mt = None /\ publishers s !! t = None /\ get_topic_type e t = None)) /\
  (forall e c t msg (s s' : @state Inst) err,
     publish gmc pop e c t msg s = (inl err, s') -> err <> KeyError).
Proof.
  assert (Hreg : forall e c t mt (s s' : @state Inst) err,
     register gmc e c t mt s = (inl err, s') ->
     err <> KeyError /\ err <> ConversionError /\
     (err = TopicNotEstablishedException ->
        mt = None /\ publishers s !! t = None /\ get_topic_type e t = None)).
  { intros e c t mt s s' err.
    unfold register, verify_type, new_multipublisher, check_established.
    unfold_M. unfold_M.
    destruct (publishers s !! t) as [mp|] eqn:Hl; cbn [fst snd publishers];
      [rewrite ?Hl|];
      destruct mt as [ty|]; destruct (get_topic_type e t) as [est|] eqn:Hg;
      repeat (first [ rewrite lookup_insert_eq | rewrite Hl | case_match ];
              cbn [fst snd publishers] in * );
      intros; simplify_eq; split_and!; try done; intros; simplify_eq;
      simpl in *; rewrite lookup_insert_eq in *; discriminate. }
  split; [exact Hreg|].
  intros e c t msg s s' err. unfold publish, bind.
  destruct (register gmc e c t None s) as [[err'|[]] s1] eqn:Hr.
  - intros [= <- _]. by apply (Hreg _ _ _ _ _ _ _ Hr).
  - intros Hp. destruct (register_ok gmc _ _ _ _ _ _ Hr) as (mp & Hl & _ & _).
    pose proof (mp_publish_shape pop _ _ _ _ _ _ _ Hl Hp) as Hsh. cbv zeta in Hsh.
    destruct Hsh as [(_ & ? & _)|(inst & _ & ? & _)]; congruence.
Qed.

(** X12.  [register] sends nothing and unregisters nothing, uses at most
    one new object identity, and changes no topic's entry but its own. *)
Theorem X12_register_footprint : forall e c t mt (s : @state Inst),
  let s' := (register gmc e c t mt s).2 in
  sent s' = sent s /\ closed s' = closed s /\
  (next_id s' = next_id s \/ next_id s' = S (next_id s)) /\
  (forall k, k <> t -> publishers s' !! k = publishers s !! k).
Proof.
  intros e c t mt s s'. subst s'.
  destruct (register gmc e c t mt s) as [r s'] eqn:Hr. cbn [snd].
  apply register_shape in Hr
    as [[err [_ ->]]|[_ (mp & Hs' & [[_ Hn]|[_ [Hn _]]])]]; [split_and!; by auto| |];
    rewrite Hs'; cbn [sent closed publishers next_id]; split_and!; try done;
    try by auto; intros k Hk; by rewrite lookup_insert_ne by congruence.
Qed.


End ExtraCalls.

Section ExtraInv.
Context {RawMsg Inst : Type}.
Variable gmc : string -> option msgclass.
Variable pop : msgclass -> RawMsg -> option Inst.

Ltac unfold_M :=
  unfold bind, ret, throw, get_state, lookup_pub, set_pub, del_pub,
    close_publisher, fresh_id, transport_send, load_class, set_publishers in *.

Lemma exec_app (ops1 ops2 : list (@op RawMsg)) (s : @state Inst) :
  exec gmc pop (ops1 ++ ops2) s = exec gmc pop ops2 (exec gmc pop ops1 s).
Proof. revert s. induction ops1 as [|o ops1 IH]; intros s; simpl; [done|]. apply IH. Qed.

(** *** The registry invariant *)

Lemma reg_inv_init : reg_inv (@init_state Inst).
Proof.
  unfold reg_inv, wf, init_state. cbn [publishers closed next_id]. split_and!.
  - intros k m. by rewrite lookup_empty.
  - constructor.
  - intros t mp. by rewrite lookup_empty.
  - intros t1 t2 mp1 mp2. by rewrite lookup_empty.
  - intros mpc t mp Hin. by apply not_elem_of_nil in Hin.
  - constructor.
Qed.

Lemma lookup_insert_same_id (ps : gmap string (@multipub Inst)) t mp mp' k m :
  ps !! t = Some mp -> mp_id mp' = mp_id mp -> <[t:=mp']> ps !! k = Some m ->
  exists m0, ps !! k = Some m0 /\ mp_id m0 = mp_id m.
Proof.
  intros Hl Hid. destruct (decide (k = t)) as [->|Hk].
  - rewrite lookup_insert_eq. intros [= <-]. eauto.
  - rewrite lookup_insert_ne by congruence. eauto.
Qed.

Lemma reg_inv_insert_same (s : @state Inst) t mp mp' sent' :
  reg_inv s -> publishers s !! t = Some mp ->
  mp_id mp' = mp_id mp -> mp_topic mp' = mp_topic mp -> mp_clients mp' ≠ ∅ ->
  reg_inv (State (<[t := mp']> (publishers s)) (next_id s) (closed s) sent').
Proof.
  intros ((Hw1 & Hw2) & Htop & Hdist & Hdisj & Hnd) Hl Hid Htp Hne.
  unfold reg_inv, wf. cbn [publishers closed next_id]. split_and!; try done.
  - intros k m. destruct (decide (k = t)) as [->|Hk].
    + rewrite lookup_insert_eq. intros [= <-]. rewrite Hid. exact (Hw1 t mp Hl).
    + rewrite lookup_insert_ne by congruence. apply Hw1.
  - intros k m. destruct (decide (k = t)) as [->|Hk].
    + rewrite lookup_insert_eq. intros [= <-]. rewrite Htp.
      split; [exact (proj1 (Htop t mp Hl))|done].
    + rewrite lookup_insert_ne by congruence. apply Htop.
  - intros k1 k2 m1 m2 H1 H2 Heq.
    destruct (lookup_insert_same_id _ _ _ _ _ _ Hl Hid H1) as (m1' & H1' & E1).
    destruct (lookup_insert_same_id _ _ _ _ _ _ Hl Hid H2) as (m2' & H2' & E2).
    apply (Hdist k1 k2 m1' m2'); congruence.
  - intros mpc k m Hin Hm.
    destruct (lookup_insert_same_id _ _ _ _ _ _ Hl Hid Hm) as (m' & Hm' & E).
    rewrite <- E. exact (Hdisj mpc k m' Hin Hm').
Qed.

Lemma register_reg_inv e c t mt (s : @state Inst) :
  reg_inv s -> reg_inv (register gmc e c t mt s).2.
Proof.
  intros Hinv. destruct (register gmc e c t mt s) as [r s'] eqn:Hr. cbn [snd].
  apply register_shape in Hr
    as [[err [_ ->]]|[_ (mp & Hs' & [[Hl Hn]|[Hl [Hn Hmp]]])]]; [done| |];
    rewrite Hn in Hs'; rewrite Hs'.
  - apply (reg_inv_insert_same s t mp); try done.
    unfold register_client. simpl. set_solver.
  - destruct Hinv as ((Hw1 & Hw2) & Htop & Hdist & Hdisj & Hnd).
    unfold reg_inv, wf. cbn [publishers closed next_id].
    assert (Hnew : mp_id (register_client mp c) = next_id s) by (rewrite Hmp; done).
    split_and!.
    + intros k m. destruct (decide (k = t)) as [->|Hk].
      * rewrite lookup_insert_eq. intros [= <-]. lia.
      * rewrite lookup_insert_ne by congruence. intros Hm.
        pose proof (Hw1 k m Hm). simpl in *. lia.
    + eapply Forall_impl; [exact Hw2|]. intros x Hx. simpl in *. lia.
    + intros k m. destruct (decide (k = t)) as [->|Hk].
      * rewrite lookup_insert_eq. intros [= <-]. rewrite Hmp. simpl.
        split; [done|set_solver].
      * rewrite lookup_insert_ne by congruence. apply Htop.
    + intros k1 k2 m1 m2 H1 H2 Heq.
      destruct (decide (k1 = t)) as [->|Hk1]; destruct (decide (k2 = t)) as [->|Hk2];
        try done;
        rewrite ?lookup_insert_eq in H1; rewrite ?lookup_insert_eq in H2;
        rewrite ?lookup_insert_ne in H1 by congruence;
        rewrite ?lookup_insert_ne in H2 by congruence.
      * injection H1 as <-. pose proof (Hw1 k2 m2 H2). simpl in *. lia.
      * injection H2 as <-. pose proof (Hw1 k1 m1 H1). simpl in *. lia.
      * exact (Hdist k1 k2 m1 m2 H1 H2 Heq).
    + intros mpc k m Hin Hm. destruct (decide (k = t)) as [->|Hk].
      * rewrite lookup_insert_eq in Hm. injection Hm as <-.
        eapply Forall_forall in Hw2; [|exact Hin]. simpl in *. lia.
      * rewrite lookup_insert_ne in Hm by congruence. exact (Hdisj mpc k m Hin Hm).
    + exact Hnd.
Qed.

Lemma unregister_reg_inv c t (s : @state Inst) :
  reg_inv s -> reg_inv (unregister c t s).2.
Proof.
  intros Hinv. destruct (unregister c t s) as [r s'] eqn:Hu. cbn [snd].
  apply unregister_shape in Hu as [_ [[_ ->]|(mp & Hl & [[Hh ->]|[Hh ->]])]];
    [done| |].
  - apply (reg_inv_insert_same s t mp); try done.
    + apply unregister_client_id.
    + apply unregister_client_topic.
    + by apply has_clients_true.
  - destruct Hinv as ((Hw1 & Hw2) & Htop & Hdist & Hdisj & Hnd).
    assert (Hdel : forall k m, delete t (publishers s) !! k = Some m ->
                   k <> t /\ publishers s !! k = Some m).
    { intros k m. destruct (decide (k = t)) as [->|Hk]; [by rewrite lookup_delete_eq|].
      rewrite lookup_delete_ne by congruence. done. }
    unfold reg_inv, wf. cbn [publishers closed next_id].
    rewrite mp_unregister_unregister_client. split_and!.
    + intros k m Hm. apply Hdel in Hm as [_ Hm]. exact (Hw1 k m Hm).
    + apply Forall_app. split; [done|]. constructor; [|constructor].
      exact (Hw1 t mp Hl).
    + intros k m Hm. apply Hdel in Hm as [_ Hm]. by apply Htop.
    + intros k1 k2 m1 m2 H1 H2.
      apply Hdel in H1 as [_ H1]. apply Hdel in H2 as [_ H2]. by apply Hdist.
    + intros mpc k m Hin Hm. apply Hdel in Hm as [Hk Hm].
      apply elem_of_app in Hin as [Hin|Hin].
      * exact (Hdisj mpc k m Hin Hm).
      * apply list_elem_of_singleton in Hin as ->. simpl. intros Heq.
        apply Hk. symmetry. exact (Hdist t k mp m Hl Hm Heq).
    + rewrite map_app. apply NoDup_app. split_and!; [done| |apply NoDup_singleton].
      intros x Hx Hx'. simpl in Hx'. apply list_elem_of_singleton in Hx'. subst x.
      rewrite list_map_fmap in Hx. apply list_elem_of_fmap in Hx as (mpc & Heq & Hin).
      exact (Hdisj mpc t mp Hin Hl (eq_sym Heq)).
Qed.

Lemma mp_publish_reg_inv e t msg (s : @state Inst) :
  reg_inv s -> reg_inv (mp_publish pop e t msg s).2.
Proof.
  intros Hinv. destruct (publishers s !! t) as [mp|] eqn:Hl.
  2:{ unfold mp_publish. unfold_M. cbn [fst snd]. rewrite Hl. done. }
  destruct (mp_publish pop e t msg s) as [r s'] eqn:Hp. cbn [snd].
  pose proof (mp_publish_shape pop _ _ _ _ _ _ _ Hl Hp) as Hsh. cbv zeta in Hsh.
  assert (Hne : mp_clients mp ≠ ∅)
    by (destruct Hinv as (_ & Htop & _); exact (proj2 (Htop t mp Hl))).
  destruct Hsh as [(_ & _ & ->)|(inst & _ & _ & ->)];
    apply (reg_inv_insert_same s t mp); try done;
    by destruct (attached (mp_listener mp) && timed_out (mp_listener mp) (now e)).
Qed.

Lemma publish_reg_inv e c t msg (s : @state Inst) :
  reg_inv s -> reg_inv (publish gmc pop e c t msg s).2.
Proof.
  intros Hinv. unfold publish, bind.
  pose proof (register_reg_inv e c t None s Hinv) as H1.
  destruct (register gmc e c t None s) as [[err|[]] s1]; cbn [fst snd] in *; [done|].
  by apply mp_publish_reg_inv.
Qed.

Lemma run_op_reg_inv o (s : @state Inst) :
  reg_inv s -> reg_inv (run_op gmc pop o s).2.
Proof.
  intros Hinv. destruct o; cbn [run_op].
  - by apply register_reg_inv.
  - by apply unregister_reg_inv.
  - apply unregister_all_inv; [|done]. intros t s0. apply unregister_reg_inv.
  - by apply publish_reg_inv.
Qed.

Lemma exec_reg_inv ops (s : @state Inst) :
  reg_inv s -> reg_inv (exec gmc pop ops s).
Proof.
  revert s. induction ops as [|o ops IH]; intros s Hs; simpl; [done|].
  apply IH. by apply run_op_reg_inv.
Qed.

(** X7.  Along any sequence of calls from an empty registry, every entry
    of the registry is the MultiPublisher of the topic it is filed under
    and has at least one client. *)
Theorem X7_entries_filed_with_clients : forall ops t mp,
  publishers (exec gmc pop ops init_state) !! t = Some mp ->
  mp_topic mp = t /\ mp_clients mp ≠ ∅.
Proof.
  intros ops t mp Hl.
  destruct (exec_reg_inv ops init_state reg_inv_init) as (_ & Htop & _).
  exact (Htop t mp Hl).
Qed.

(** X8.  Along any sequence of calls from an empty registry, no two
    topics share a MultiPublisher (object identity), no live
    MultiPublisher is one that has been unregistered, and no
    MultiPublisher is unregistered twice. *)
Theorem X8_identities : forall ops,
  let s := exec gmc pop ops init_state in
  (forall t1 t2 mp1 mp2, publishers s !! t1 = Some mp1 -> publishers s !! t2 = Some mp2 ->
     mp_id mp1 = mp_id mp2 -> t1 = t2) /\
  (forall mpc t mp, mpc ∈ closed s -> publishers s !! t = Some mp ->
     mp_id mpc <> mp_id mp) /\
  NoDup (map mp_id (closed s)).
Proof.
  intros ops s.
  destruct (exec_reg_inv ops init_state reg_inv_init) as (_ & _ & Hd & Hj & Hn).
  split_and!; [exact Hd|exact Hj|exact Hn].
Qed.

(** *** Nothing is sent on an unregistered publisher *)

Lemma run_op_no_send_closed o (s : @state Inst) mpc :
  reg_inv s -> mpc ∈ closed s ->
  mpc ∈ closed (run_op gmc pop o s).2 /\
  exists new, sent (run_op gmc pop o s).2 = sent s ++ new /\
    Forall (fun x => x.1 <> mp_id mpc) new.
Proof.
  intros Hinv Hin.
  assert (Hnone : forall s', closed s' = closed s -> sent s' = sent s ->
            mpc ∈ closed s' /\ exists new, sent s' = sent s ++ new /\
              Forall (fun x : nat * Inst => x.1 <> mp_id mpc) new).
  { intros s' -> ->. split; [done|]. exists []. by rewrite app_nil_r. }
  assert (Hreg : forall e c t mt, closed (register gmc e c t mt s).2 = closed s /\
                   sent (register gmc e c t mt s).2 = sent s).
  { intros e c t mt. destruct (register gmc e c t mt s) as [r s'] eqn:Hr. cbn [snd].
    apply register_shape in Hr as [[err [_ ->]]|[_ (mp & -> & _)]]; done. }
  destruct o as [e c t mt|c t|c|e c t msg]; cbn [run_op].
  - apply Hnone; apply Hreg.
  - destruct (unregister_effect c t s) as (_ & _ & Hs & _ & Hc).
    split; [rewrite Hc; apply elem_of_app; by left|].
    exists []. by rewrite Hs, app_nil_r.
  - destruct (unregister_all_inv (fun s1 => mpc ∈ closed s1 /\ sent s1 = sent s) c s)
      as [[Hc Hs] _]; [| |split; [done|exists []; by rewrite Hs, app_nil_r]].
    + intros t s0 [Hc0 Hs0].
      destruct (unregister_effect c t s0) as (_ & _ & Hs1 & _ & Hc1).
      split; [rewrite Hc1; apply elem_of_app; by left|congruence].
    + done.
  - unfold publish, bind.
    destruct (Hreg e c t None) as [Hc1 Hs1].
    pose proof (register_reg_inv e c t None s Hinv) as Hinv1.
    destruct (register gmc e c t None s) as [[err|[]] s1]; cbn [fst snd] in *;
      [by apply Hnone|].
    destruct (publishers s1 !! t) as [mp|] eqn:Hl.
    2:{ unfold mp_publish. unfold_M. cbn [fst snd]. rewrite Hl. by apply Hnone. }
    destruct (mp_publish pop e t msg s1) as [r s'] eqn:Hp. cbn [snd].
    pose proof (mp_publish_shape pop _ _ _ _ _ _ _ Hl Hp) as Hsh. cbv zeta in Hsh.
    destruct Hsh as [(_ & _ & ->)|(inst & _ & _ & ->)]; cbn [closed sent];
      [by apply Hnone|].
    split; [congruence|]. exists [(mp_id mp, inst)]. split; [congruence|].
    constructor; [|constructor]. simpl.
    destruct Hinv1 as (_ & _ & _ & Hdisj & _). intros Heq.
    apply (Hdisj mpc t mp); [congruence|done|done].
Qed.

Lemma exec_no_send_closed ops (s : @state Inst) mpc :
  reg_inv s -> mpc ∈ closed s ->
  exists new, sent (exec gmc pop ops s) = sent s ++ new /\
    Forall (fun x => x.1 <> mp_id mpc) new.
Proof.
  revert s. induction ops as [|o ops IH]; intros s Hinv Hin; simpl.
  - exists []. by rewrite app_nil_r.
  - destruct (run_op_no_send_closed o s mpc Hinv Hin) as [Hin1 (new1 & Hs1 & Hf1)].
    destruct (IH _ (run_op_reg_inv o s Hinv) Hin1) as (new2 & Hs2 & Hf2).
    exists (new1 ++ new2). rewrite Hs2, Hs1, app_assoc. split; [done|].
    by apply Forall_app.
Qed.

(** X9.  Once a MultiPublisher has been unregistered, no later call
    hands a message to the transport tagged with it: the messages sent
    afterwards all go to other publishers. *)
Theorem X9_no_send_after_close : forall ops1 ops2 mpc,
  mpc ∈ closed (exec gmc pop ops1 init_state) ->
  exists new, sent (exec gmc pop (ops1 ++ ops2) init_state) =
              sent (exec gmc pop ops1 init_state) ++ new /\
    Forall (fun x => x.1 <> mp_id mpc) new.
Proof.
  intros ops1 ops2 mpc Hin. rewrite exec_app.
  apply exec_no_send_closed; [|done].
  apply exec_reg_inv, reg_inv_init.
Qed.

(** *** Listeners only move forward *)

Lemma listener_later_refl (l : listener Inst) : listener_later l l.
Proof. split_and!; [done|by exists []; rewrite app_nil_r|done]. Qed.

Lemma listener_later_trans (l1 l2 l3 : listener Inst) :
  listener_later l1 l2 -> listener_later l2 l3 -> listener_later l1 l3.
Proof.
  intros (E1 & P1 & A1) (E2 & P2 & A2). split_and!.
  - congruence.
  - by transitivity (msg_buffer l2).
  - auto.
Qed.

Lemma listener_later_detach (l : listener Inst) : listener_later l (detach l).
Proof. split_and!; [done|by exists []; rewrite app_nil_r|done]. Qed.

Lemma listener_later_override (l : listener Inst) t m :
  listener_later l (publish_override l t m).1.
Proof.
  unfold publish_override. destruct (negb (timed_out l t)); simpl;
    [|apply listener_later_refl].
  split_and!; [done|by exists [m]|done].
Qed.

Lemma evolves_refl (s : @state Inst) : evolves s s.
Proof.
  split; [lia|]. intros t mp' Hl. left. exists mp'.
  split_and!; [done|done|apply listener_later_refl].
Qed.

Lemma evolves_trans (s1 s2 s3 : @state Inst) :
  evolves s1 s2 -> evolves s2 s3 -> evolves s1 s3.
Proof.
  intros [Hn12 H12] [Hn23 H23]. split; [lia|].
  intros t mp3 Hl3. destruct (H23 t mp3 Hl3) as [(mp2 & Hl2 & Hid2 & Hlat2)|Hge];
    [|right; lia].
  destruct (H12 t mp2 Hl2) as [(mp1 & Hl1 & Hid1 & Hlat1)|Hge]; [|right; lia].
  left. exists mp1. split_and!; [done|congruence|].
  eapply listener_later_trans; eassumption.
Qed.

Lemma evolves_insert (s : @state Inst) t mp mp' n' closed' sent' :
  publishers s !! t = Some mp -> mp_id mp' = mp_id mp ->
  listener_later (mp_listener mp) (mp_listener mp') -> (next_id s <= n')%nat ->
  evolves s (State (<[t := mp']> (publishers s)) n' closed' sent').
Proof.
  intros Hl Hid Hlat Hn. split; [done|]. cbn [publishers].
  intros k m. destruct (decide (k = t)) as [->|Hk].
  - rewrite lookup_insert_eq. intros [= <-]. left. eauto.
  - rewrite lookup_insert_ne by congruence. intros Hm. left. exists m.
    split_and!; [done|done|apply listener_later_refl].
Qed.

Lemma register_evolves e c t mt (s : @state Inst) :
  evolves s (register gmc e c t mt s).2.
Proof.
  destruct (register gmc e c t mt s) as [r s'] eqn:Hr. cbn [snd].
  apply register_shape in Hr
    as [[err [_ ->]]|[_ (mp & Hs' & [[Hl Hn]|[Hl [Hn Hmp]]])]];
    [apply evolves_refl| |]; rewrite Hn in Hs'; rewrite Hs'.
  - apply (evolves_insert s t mp); [done|done|apply listener_later_refl|lia].
  - split; [cbn [next_id]; lia|]. cbn [publishers].
    intros k m. destruct (decide (k = t)) as [->|Hk].
    + rewrite lookup_insert_eq. intros [= <-]. right. rewrite Hmp. simpl. lia.
    + rewrite lookup_insert_ne by congruence. intros Hm. left. exists m.
      split_and!; [done|done|apply listener_later_refl].
Qed.

Lemma unregister_evolves c t (s : @state Inst) :
  evolves s (unregister c t s).2.
Proof.
  destruct (unregister c t s) as [r s'] eqn:Hu. cbn [snd].
  apply unregister_shape in Hu as [_ [[_ ->]|(mp & Hl & [[_ ->]|[_ ->]])]];
    [apply evolves_refl| |].
  - apply (evolves_insert s t mp); [done|apply unregister_client_id| |lia].
    rewrite unregister_client_listener. apply listener_later_refl.
  - split; [cbn [next_id]; lia|]. cbn [publishers].
    intros k m. destruct (decide (k = t)) as [->|Hk]; [by rewrite lookup_delete_eq|].
    rewrite lookup_delete_ne by congruence. intros Hm. left. exists m.
    split_and!; [done|done|apply listener_later_refl].
Qed.

Lemma mp_publish_evolves e t msg (s : @state Inst) :
  evolves s (mp_publish pop e t msg s).2.
Proof.
  destruct (publishers s !! t) as [mp|] eqn:Hl.
  2:{ unfold mp_publish. unfold_M. cbn [fst snd]. rewrite Hl. apply evolves_refl. }
  destruct (mp_publish pop e t msg s) as [r s'] eqn:Hp. cbn [snd].
  pose proof (mp_publish_shape pop _ _ _ _ _ _ _ Hl Hp) as Hsh. cbv zeta in Hsh.
  destruct (attached (mp_listener mp)) eqn:Ha;
    [destruct (timed_out (mp_listener mp) (now e)) eqn:Ht|]; cbn [andb] in Hsh;
    destruct Hsh as [(_ & _ & ->)|(inst & _ & _ & ->)];
    apply (evolves_insert s t mp); try done; try lia; simpl; rewrite ?Ha;
    first [ apply listener_later_refl | apply listener_later_detach
          | rewrite Ht; simpl; split_and!; [done|by exists [inst]|congruence] ].
Qed.

Lemma run_op_evolves o (s : @state Inst) : evolves s (run_op gmc pop o s).2.
Proof.
  destruct o; cbn [run_op].
  - apply register_evolves.
  - apply unregister_evolves.
  - apply unregister_all_inv; [|apply evolves_refl].
    intros t s0 H0. eapply evolves_trans; [exact H0|]. apply unregister_evolves.
  - unfold publish, bind.
    pose proof (register_evolves e client_id topic None s) as H1.
    destruct (register gmc e client_id topic None s) as [[err|[]] s1];
      cbn [fst snd] in *; [done|].
    eapply evolves_trans; [exact H1|]. apply mp_publish_evolves.
Qed.

Lemma exec_evolves ops (s : @state Inst) : evolves s (exec gmc pop ops s).
Proof.
  revert s. induction ops as [|o ops IH]; intros s; simpl; [apply evolves_refl|].
  eapply evolves_trans; [apply run_op_evolves|apply IH].
Qed.

(** X10.  Along any sequence of calls from an empty registry, a
    MultiPublisher met again later (same object identity) is under the
    same topic, and its listener has only moved forward: the same
    creation time, a buffer that has only grown, and, once detached, it
    is never attached again. *)
Theorem X10_listener_history : forall ops1 ops2 t t' mp mp',
  publishers (exec gmc pop ops1 init_state) !! t = Some mp ->
  publishers (exec gmc pop (ops1 ++ ops2) init_state) !! t' = Some mp' ->
  mp_id mp' = mp_id mp ->
  t' = t /\ listener_later (mp_listener mp) (mp_listener mp').
Proof.
  intros ops1 ops2 t t' mp mp' Hl Hl' Hid. rewrite exec_app in Hl'.
  pose proof (exec_reg_inv ops1 init_state reg_inv_init)
    as ((Hw1 & _) & _ & Hdist & _).
  destruct (exec_evolves ops2 (exec gmc pop ops1 init_state)) as [_ Hev].
  destruct (Hev t' mp' Hl') as [(mp0 & Hl0 & Hid0 & Hlat)|Hge].
  - assert (t' = t) as ->.
    { apply (Hdist t' t mp0 mp Hl0 Hl). congruence. }
    rewrite Hl in Hl0. injection Hl0 as <-. done.
  - pose proof (Hw1 t mp Hl). simpl in *. lia.
Qed.

End ExtraInv.

(** *** Delivery to each subscriber *)

Section ExtraBuffer.
Context {Msg Peer : Type}.

Lemma brun_peers_split (s : @Buffer.bstate Msg Peer) (evs : list (@Buffer.event Msg Peer)) :
  Buffer.b_peers (Buffer.brun s evs) =
  map (fun pm => (pm.1, pm.2 ++ Buffer.sends evs)) (Buffer.b_peers s) ++
  Buffer.b_peers (Buffer.brun (Buffer.BState (Buffer.b_listener s) []) evs).
Proof.
  unfold Buffer.brun. revert s. induction evs as [|ev evs IH]; intros [l peers].
  - simpl. rewrite app_nil_r. induction peers as [|[p ms] peers IHp]; simpl; [done|].
    rewrite app_nil_r. f_equal. exact IHp.
  - simpl. rewrite (IH (Buffer.bstep _ ev)), (IH (Buffer.bstep (Buffer.BState l []) ev)).
    destruct ev as [t m|t p]; simpl.
    + unfold Buffer.transport_publish.
      destruct (attached l); simpl; rewrite map_map; f_equal;
        apply map_ext; intros [p ms]; simpl; by rewrite <- app_assoc.
    + rewrite map_app, <- app_assoc. done.
Qed.

Lemma brun_peer_names (s : @Buffer.bstate Msg Peer) (evs : list (@Buffer.event Msg Peer)) :
  map fst (Buffer.b_peers (Buffer.brun s evs)) =
  map fst (Buffer.b_peers s) ++ Buffer.connected evs.
Proof.
  unfold Buffer.brun. revert s. induction evs as [|ev evs IH]; intros [l peers].
  - simpl. by rewrite app_nil_r.
  - simpl. rewrite IH. destruct ev as [t m|t p]; simpl.
    + assert (Hfst : forall m', map fst (Buffer.transport_publish peers m') = map fst peers).
      { intros m'. unfold Buffer.transport_publish. rewrite map_map. by apply map_ext. }
      destruct (attached l); simpl; by rewrite Hfst.
    + by rewrite map_app, <- app_assoc.
Qed.

(** X11.  While the listener stays attached (the buffer model has no
    detach), every subscriber gets each message sent after it connected,
    in send order, with no duplicate: those connected before the events
    get exactly the messages sent, appended; and a subscriber that
    connects at time [t] after the events [pre] gets the messages sent in
    the window during [pre] (nothing when [t] is past the window),
    followed by every message sent after it connected. *)
Theorem X11_subscriber_delivery :
  forall t0 (peers : list (Peer * list Msg)) (evs : list (@Buffer.event Msg Peer)),
  (exists rest,
     Buffer.b_peers (Buffer.brun (Buffer.BState (attach t0) peers) evs) =
     map (fun pm => (pm.1, pm.2 ++ Buffer.sends evs)) peers ++ rest /\
     map fst rest = Buffer.connected evs) /\
  (forall pre t p post, evs = pre ++ Buffer.EConnect t p :: post ->
   exists before after,
     Buffer.b_peers (Buffer.brun (Buffer.BState (attach t0) peers) evs) =
     before ++ (p, (if timed_out (@attach Msg t0) t then []
                    else Buffer.sent_in_window t0 pre) ++ Buffer.sends post) :: after /\
     length before = (length peers + length (Buffer.connected pre))%nat).
Proof.
  intros t0 peers evs. split.
  - eexists. rewrite brun_peers_split. cbn [Buffer.b_peers Buffer.b_listener].
    split; [done|]. by rewrite brun_peer_names.
  - intros pre t p post ->.
    assert (Hb : Buffer.brun (Buffer.BState (attach t0) peers) (pre ++ Buffer.EConnect t p :: post)
                 = Buffer.brun (Buffer.bstep (Buffer.brun (Buffer.BState (attach t0) peers) pre)
                                 (Buffer.EConnect t p)) post).
    { unfold Buffer.brun. by rewrite fold_left_app. }
    rewrite Hb.
    pose proof (brun_listener t0 pre [] (Buffer.BState (attach t0) peers) eq_refl) as Hl.
    simpl in Hl.
    pose proof (brun_peer_names (Buffer.BState (attach t0) peers) pre) as Hn.
    destruct (Buffer.brun (Buffer.BState (attach t0) peers) pre) as [l1 p1] eqn:Hr.
    cbn [Buffer.b_listener Buffer.b_peers] in Hl, Hn. subst l1.
    rewrite brun_peers_split. cbn [Buffer.bstep Buffer.b_peers Buffer.b_listener attached].
    rewrite map_app. simpl.
    exists (map (fun pm => (pm.1, pm.2 ++ Buffer.sends post)) p1). eexists.
    split.
    + rewrite <- app_assoc. simpl. f_equal. f_equal. f_equal.
      unfold peer_subscribe, timed_out. simpl. by destruct (timeout <? t - t0).
    + rewrite length_map. rewrite <- (length_map fst p1), Hn, length_app.
      cbn [Buffer.b_peers]. by rewrite length_map.
Qed.

End ExtraBuffer.

(** ** Checks on the concrete environment *)

Section Witnesses.
Import Demo.

Lemma s_A_entry : publishers s_A !! "/cmd" = Some mp_A.
Proof. vm_compute. reflexivity. Qed.

Lemma s_A_wf : wf s_A.
Proof. split; [|constructor]. apply (bool_decide_unpack _). vm_compute. exact I. Qed.

(** C1 at ["/cmd"]: ["A"] registers, then ["B"] registers, publishes and
    unregisters, and ["C"] unregisters from everything. *)
Lemma C1_witness :
  (exists mp,
     publishers (run_op loader populate
                   (OpRegister e0 "A" "/cmd" (Some "std_msgs/String")) init_state).2
       !! "/cmd" = Some mp /\
     "A" ∈ mp_clients mp /\ has_clients mp = true /\
     forall mp0, publishers (init_state (Inst:=string)) !! "/cmd" = Some mp0 ->
       mp_id mp = mp_id mp0) /\
  (exists mp',
     publishers (exec loader populate
                   [OpRegister e0 "B" "/cmd" None; OpPublish e0 "B" "/cmd" "hi";
                    OpUnregister "B" "/cmd"; OpUnregisterAll "C"] s_A) !! "/cmd"
       = Some mp' /\
     mp_id mp' = mp_id mp_A /\ "A" ∈ mp_clients mp' /\ has_clients mp' = true).
Proof.
  destruct (C1_one_shared_endpoint_per_topic loader populate) as [H1 H2].
  split.
  - apply H1; [simpl; split; reflexivity|vm_compute; reflexivity].
  - apply H2.
    + exact s_A_entry.
    + simpl. set_solver.
    + repeat (constructor; [simpl; intuition discriminate|]). constructor.
Defined.

(** C2 with one subscriber ["p1"] connected before the sends. *)
Lemma C2_witness :
  Buffer.bstep (Buffer.BState (attach 0) [("p1", [])]) (Buffer.ESend 5 "m1") =
  Buffer.BState (Listener 0 ["m1"] true) [("p1", ["m1"])] /\
  Buffer.bstep (Buffer.BState (Listener 0 ["m1"] true) [("p1", ["m1"])])
    (Buffer.EConnect 7 "p2") =
  Buffer.BState (Listener 0 ["m1"] true) [("p1", ["m1"]); ("p2", ["m1"])] /\
  Buffer.bstep (Buffer.BState (Listener 0 ["m1"] true) [("p1", ["m1"])])
    (Buffer.ESend 3000000 "m2") =
  Buffer.BState (Listener 0 ["m1"] true) [("p1", ["m1"; "m2"])].
Proof.
  destruct (@C2_buffering_window string string) as (HA & HB & _).
  split_and!.
  - rewrite HA; reflexivity.
  - rewrite HB; reflexivity.
  - rewrite HA; reflexivity.
Defined.

(** C3: a rejected [register] on ["/cmd"]; a [publish] of a malformed
    message on the advertised ["/chatter"]. *)
Lemma C3_witness :
  (register loader e0 "B" "/cmd" (Some "std_msgs/Int32") s_A).2 = s_A /\
  exists (s1 : @state string) (mp : @multipub string),
    register loader e_chatter "A" "/chatter" None init_state = (inr (), s1) /\
    publishers s1 !! "/chatter" = Some mp /\ "A" ∈ mp_clients mp.
Proof.
  destruct (C3_failed_calls loader populate) as [H1 H2]. split.
  - apply (H1 e0 "B" "/cmd" (Some "std_msgs/Int32") s_A _ TypeConflictException).
    vm_compute. reflexivity.
  - destruct (H2 e_chatter "A" "/chatter" "bad" init_state
                (publish loader populate e_chatter "A" "/chatter" "bad" init_state).2
                ConversionError) as [[Hr _]|[_ (s1 & mp & Hr & Hl & Hc & _)]].
    + vm_compute. reflexivity.
    + vm_compute in Hr. discriminate.
    + eauto.
Defined.

(** C3 as stated fails: the failed [publish] leaves a MultiPublisher on
    ["/chatter"], where there was none. *)
Lemma C3_counterexample :
  (publish loader populate e_chatter "A" "/chatter" "bad" init_state).1
    = inl ConversionError /\
  publishers (init_state (Inst:=string)) !! "/chatter" = None /\
  publishers (publish loader populate e_chatter "A" "/chatter" "bad" init_state).2
    !! "/chatter" <> None.
Proof. vm_compute. split; [reflexivity|split; [reflexivity|congruence]]. Qed.

(** C4 at ["/cmd"]: ["B"] with [std_msgs/Int32] is rejected, with
    [std_msgs/String] accepted. *)
Lemma C4_witness :
  (register loader e0 "B" "/cmd" (Some "std_msgs/Int32") s_A).1
    = inl TypeConflictException /\
  (register loader e0 "B" "/cmd" (Some "std_msgs/String") s_A).1 = inr ().
Proof.
  assert (H0 : register loader e0 "A" "/cmd" (Some "std_msgs/String") init_state
               = (inr (), s_A)) by (vm_compute; reflexivity).
  split.
  - destruct (C4_type_consistency loader e0 e0 "A" "B" "/cmd" "std_msgs/String"
                "std_msgs/Int32" init_state s_A H0) as (mp & k1 & Hl & _ & _ & Hr).
    rewrite Hr. rewrite s_A_entry in Hl. injection Hl as <-.
    vm_compute. reflexivity.
  - destruct (C4_type_consistency loader e0 e0 "A" "B" "/cmd" "std_msgs/String"
                "std_msgs/String" init_state s_A H0) as (mp & k1 & Hl & _ & _ & Hr).
    rewrite Hr. rewrite s_A_entry in Hl. injection Hl as <-.
    vm_compute. reflexivity.
Defined.

(** C4 as stated fails: a type other than [std_msgs/String] is refused
    with the loader's error when it does not resolve, and accepted when it
    is another spelling of the same class. *)
Lemma C4_counterexample :
  (register loader e0 "B" "/cmd" (Some "std_msgs/Strng") s_A).1 = inl LoaderError /\
  (register loader e0 "B" "/cmd" (Some "/std_msgs/String") s_A).1 = inr ().
Proof. vm_compute. split; reflexivity. Qed.

(** C5 on ["/chatter"] (advertised as [std_msgs/String]) and on the
    unadvertised ["/cmd"]. *)
Lemma C5_witness :
  new_multipublisher loader e0 "/cmd" None (init_state (Inst:=string))
    = (inl TopicNotEstablishedException, init_state) /\
  new_multipublisher loader e_chatter "/chatter" None (init_state (Inst:=string))
    = (inr (MultiPub 0 "/chatter" string_cls ∅ (attach 0)), State ∅ 1 [] []) /\
  (exists err, new_multipublisher loader e_chatter "/chatter" (Some "std_msgs/Int32")
                 (init_state (Inst:=string)) = (inl err, init_state)).
Proof.
  split_and!.
  - destruct (C5_creation_type_resolution loader e0 "/cmd" (Inst:=string) init_state)
      as (_ & Hn & _).
    apply Hn. reflexivity.
  - destruct (C5_creation_type_resolution loader e_chatter "/chatter"
                (Inst:=string) init_state) as (_ & _ & Hty).
    destruct (Hty None "std_msgs/String" (or_intror (conj eq_refl eq_refl)))
      as [_ Hk].
    apply (proj2 (Hk string_cls eq_refl)). intros T HT. injection HT as <-. reflexivity.
  - destruct (C5_creation_type_resolution loader e_chatter "/chatter"
                (Inst:=string) init_state) as (_ & _ & Hty).
    destruct (Hty (Some "std_msgs/Int32") "std_msgs/Int32" (or_introl eq_refl))
      as [_ Hk].
    apply (proj1 (Hk int_cls eq_refl) "std_msgs/String"); [reflexivity|discriminate].
Defined.

(** C5 as stated fails: a supplied type differing from the established
    one gives the loader's error when it does not resolve, and no error at
    all when it is another spelling of the established type. *)
Lemma C5_counterexample :
  (new_multipublisher loader e_chatter "/chatter" (Some "std_msgs/Strng")
     (init_state (Inst:=string))).1 = inl LoaderError /\
  (new_multipublisher loader e_chatter "/chatter" (Some "/std_msgs/String")
     (init_state (Inst:=string))).1
    = inr (MultiPub 0 "/chatter" string_cls ∅ (attach 0)).
Proof. vm_compute. split; reflexivity. Qed.

(** C6 at ["/cmd"]: ["A"] leaves, ["B"] registers two seconds later. *)
Lemma C6_witness :
  publishers (unregister "A" "/cmd" s_A).2 = delete "/cmd" (publishers s_A) /\
  exists mp',
    publishers (register loader e_late "B" "/cmd" (Some "std_msgs/String")
                  (unregister "A" "/cmd" s_A).2).2 !! "/cmd" = Some mp' /\
    mp_id mp' <> mp_id mp_A /\ mp_listener mp' = attach (now e_late).
Proof.
  pose proof (C6_teardown_then_fresh_endpoint loader s_A "A" "/cmd" mp_A
                s_A_wf s_A_entry eq_refl) as H.
  cbv zeta in H. destruct H as (Hp & _ & _ & Hreg). split; [exact Hp|].
  destruct (Hreg e_late "B" (Some "std_msgs/String")
              (register loader e_late "B" "/cmd" (Some "std_msgs/String")
                 (unregister "A" "/cmd" s_A).2).2)
    as (mp' & Hl & Hid & _ & _ & Hli).
  - vm_compute. reflexivity.
  - eauto.
Defined.

(** C7 at ["/cmd"]: a publish two seconds after creation detaches the
    listener; a connection made then gets no replay. *)
Lemma C7_witness :
  (exists mp', publishers (mp_publish populate e_late "/cmd" "hi" s_A).2 !! "/cmd"
                 = Some mp' /\ mp_listener mp' = detach (attach 0)) /\
  Buffer.bstep (Buffer.BState (attach 0) [("p1", ["m1"])]) (Buffer.EConnect 2000000 "p2")
    = Buffer.BState (attach 0) [("p1", ["m1"]); ("p2", [])].
Proof.
  destruct (C7_detach_on_publish_only loader populate) as (H1 & H2 & _).
  split.
  - destruct (H1 e_late "/cmd" "hi" s_A mp_A s_A_entry eq_refl eq_refl)
      as (mp' & Hl & _ & Hli & _).
    eauto.
  - exact (H2 (Buffer.BState (attach 0) [("p1", ["m1"])]) 2000000 "p2" eq_refl).
Defined.

(** C8 on [s_A]: ["A"] leaves a topic without MultiPublisher, ["C"] leaves
    ["/cmd"] it never joined. *)
Lemma C8_witness :
  unregister "A" "/other" s_A = (inr (), s_A) /\
  unregister "C" "/cmd" s_A = (inr (), s_A).
Proof.
  destruct (C8_unregister_noop "A" "/other" s_A) as [Hn _].
  destruct (C8_unregister_noop "C" "/cmd" s_A) as [_ Hc].
  split.
  - apply Hn. vm_compute. reflexivity.
  - apply (Hc mp_A s_A_entry); [simpl; set_solver|reflexivity].
Defined.

(** C9 on ["/cmd"]: ["A"] registers twice, unregisters once, and the
    MultiPublisher is gone. *)
Lemma C9_witness :
  publishers (unregister "A" "/cmd"
    (register loader e0 "A" "/cmd" None s_A).2).2 !! "/cmd" = None.
Proof.
  destruct (C9_register_twice_unregister_once (Inst:=string) loader) as [_ H].
  destruct (H e0 e0 "A" "/cmd" (Some "std_msgs/String") None init_state s_A
              (register loader e0 "A" "/cmd" None s_A).2)
    as (_ & _ & Hnone).
  - vm_compute. reflexivity.
  - vm_compute. reflexivity.
  - apply Hnone. intros mp0 Hl. vm_compute in Hl. discriminate.
Defined.

(** C10 with the spellings ["/std_msgs/String"] and ["std_msgs//String"]
    of [std_msgs/String]. *)
Lemma C10_witness :
  new_multipublisher loader e_chatter "/chatter" (Some "/std_msgs/String")
    (init_state (Inst:=string))
    = (inr (MultiPub 0 "/chatter" string_cls ∅ (attach 0)), State ∅ 1 [] []) /\
  verify_type loader mp_A "std_msgs//String" s_A = (inr (), s_A) /\
  register loader e0 "B" "/cmd" (Some "/std_msgs/String") s_A
    = (inr (), set_publishers s_A (<[ "/cmd" := register_client mp_A "B" ]> (publishers s_A))).
Proof.
  destruct (C10_resolved_type_decides loader (Inst:=string)) as (H1 & H2 & H3).
  split_and!.
  - exact (H1 e_chatter "/chatter" "/std_msgs/String" string_cls init_state
             eq_refl eq_refl).
  - exact (H2 mp_A "std_msgs//String" string_cls s_A eq_refl eq_refl).
  - exact (H3 e0 "B" "/cmd" "/std_msgs/String" string_cls s_A mp_A
             s_A_entry eq_refl eq_refl).
Defined.


(** X1 on [s_A]: ["A"] leaves everything; ["/cmd"] is torn down. *)
Lemma X1_witness :
  (unregister_all "A" s_A).1 = inr () /\
  publishers (unregister_all "A" s_A).2 !! "/cmd" = None.
Proof.
  destruct (X1_unregister_all_effect "A" s_A) as (H1 & _ & _ & Hp & _).
  split; [exact H1|]. rewrite Hp, s_A_entry. vm_compute. reflexivity.
Defined.

(** X2 on [s_A]: ["A"], the only client of ["/cmd"], leaves it. *)
Lemma X2_witness :
  publishers (unregister "A" "/cmd" s_A).2 !! "/cmd" = None /\
  closed (unregister "A" "/cmd" s_A).2 = closed s_A ++ [with_clients mp_A ∅].
Proof.
  destruct (X2_unregister_effect "A" "/cmd" s_A) as (_ & _ & _ & _ & _ & Hmp).
  apply (proj1 (Hmp mp_A s_A_entry)). simpl. set_solver.
Defined.

(** X3 on [s_A], two seconds later and with no topic advertised. *)
Lemma X3_witness :
  register loader e_late "B" "/cmd" None s_A =
  (inr (), State (<["/cmd" := with_clients mp_A ({["B"]} ∪ {["A"]})]> (publishers s_A))
                 (next_id s_A) (closed s_A) (sent s_A)).
Proof. exact (X3_register_existing_untyped loader e_late "B" "/cmd" s_A mp_A s_A_entry). Defined.

(** X4 on [s_A]: ["B"] joins ["/cmd"] and leaves it. *)
Lemma X4_witness :
  publishers (unregister "B" "/cmd" (register loader e0 "B" "/cmd" None s_A).2).2
    = publishers s_A.
Proof.
  apply (X4_register_unregister_roundtrip loader e0 "B" "/cmd" None s_A).
  - intros mp. rewrite s_A_entry. intros [= <-]. simpl. split; set_solver.
  - vm_compute. reflexivity.
Defined.

(** X5 on [s_A]: ["B"] publishes ["hi"] on ["/cmd"]. *)
Lemma X5_witness :
  exists mp inst,
    publishers (publish loader populate e0 "B" "/cmd" "hi" s_A).2 !! "/cmd" = Some mp /\
    "B" ∈ mp_clients mp /\ populate (mp_class mp) "hi" = Some inst /\
    sent (publish loader populate e0 "B" "/cmd" "hi" s_A).2
      = sent s_A ++ [(mp_id mp, inst)] /\
    closed (publish loader populate e0 "B" "/cmd" "hi" s_A).2 = closed s_A.
Proof.
  apply (X5_publish_success loader populate e0 "B" "/cmd" "hi" s_A).
  vm_compute. reflexivity.
Defined.

(** X6: a register without type on the unadvertised ["/cmd"]; a publish
    of a malformed message. *)
Lemma X6_witness :
  publishers (init_state (Inst:=string)) !! "/cmd" = None /\
  get_topic_type e0 "/cmd" = None /\
  (publish loader populate e_chatter "A" "/chatter" "bad" init_state).1 = inl ConversionError /\
  (publish loader populate e_chatter "A" "/chatter" "bad" init_state).1 <> inl KeyError.
Proof.
  destruct (X6_error_kinds loader populate) as [Hr Hp].
  destruct (Hr e0 "A" "/cmd" None init_state init_state TopicNotEstablishedException)
    as (_ & _ & Ht); [vm_compute; reflexivity|].
  destruct (Ht eq_refl) as (_ & H1 & H2). split_and!; [exact H1|exact H2|vm_compute; reflexivity|].
  destruct (publish loader populate e_chatter "A" "/chatter" "bad" init_state)
    as [r s'] eqn:E.
  simpl. intros ->. exact (Hp _ _ _ _ _ _ _ E eq_refl).
Defined.

(** X7 after ["A"] left ["/cmd"] and ["B"] registered and published there. *)
Lemma X7_witness :
  exists mp, publishers (exec loader populate (ops_leave ++ ops_return) init_state)
               !! "/cmd" = Some mp /\
    mp_topic mp = "/cmd" /\ mp_clients mp ≠ ∅.
Proof.
  destruct (publishers (exec loader populate (ops_leave ++ ops_return) init_state)
              !! "/cmd") as [mp|] eqn:E; [|vm_compute in E; discriminate].
  exists mp. split; [done|].
  exact (X7_entries_filed_with_clients loader populate _ "/cmd" mp E).
Defined.

(** X8 on the same run: the MultiPublisher unregistered when ["A"] left is
    not the one ["B"] uses. *)
Lemma X8_witness :
  exists mp, publishers (exec loader populate (ops_leave ++ ops_return) init_state)
               !! "/cmd" = Some mp /\
    mp_id (with_clients mp_A ∅) <> mp_id mp.
Proof.
  destruct (X8_identities loader populate (ops_leave ++ ops_return)) as (_ & Hj & _).
  destruct (publishers (exec loader populate (ops_leave ++ ops_return) init_state)
              !! "/cmd") as [mp|] eqn:E; [|vm_compute in E; discriminate].
  exists mp. split; [done|]. apply (Hj _ "/cmd" mp); [|exact E].
  assert (Hc : closed (exec loader populate (ops_leave ++ ops_return) init_state)
               = [with_clients mp_A ∅]) by (vm_compute; reflexivity).
  rewrite Hc. by apply list_elem_of_singleton.
Defined.

(** X9: after ["A"] left ["/cmd"], ["B"]'s message goes to the new
    MultiPublisher. *)
Lemma X9_witness :
  sent (exec loader populate (ops_leave ++ ops_return) init_state) = [(1%nat, "hi")] /\
  exists new, sent (exec loader populate (ops_leave ++ ops_return) init_state) =
              sent (exec loader populate ops_leave init_state) ++ new /\
    Forall (fun x => x.1 <> mp_id (with_clients mp_A ∅)) new.
Proof.
  split; [vm_compute; reflexivity|].
  apply X9_no_send_after_close.
  assert (Hc : closed (exec loader populate ops_leave init_state)
               = [with_clients mp_A ∅]) by (vm_compute; reflexivity).
  rewrite Hc. by apply list_elem_of_singleton.
Defined.

(** X10: ["A"] publishes on ["/cmd"] two seconds after creating it; the
    MultiPublisher is the same, its listener detached. *)
Lemma X10_witness :
  exists mp',
    publishers (exec loader populate
                  ([OpRegister e0 "A" "/cmd" (Some "std_msgs/String")] ++
                   [OpPublish e_late "A" "/cmd" "hi"]) init_state) !! "/cmd" = Some mp' /\
    listener_later (mp_listener mp_A) (mp_listener mp') /\
    attached (mp_listener mp') = false.
Proof.
  destruct (publishers (exec loader populate
                  ([OpRegister e0 "A" "/cmd" (Some "std_msgs/String")] ++
                   [OpPublish e_late "A" "/cmd" "hi"]) init_state) !! "/cmd")
    as [mp'|] eqn:E; [|vm_compute in E; discriminate].
  exists mp'. split; [done|].
  pose proof E as E'. vm_compute in E'. injection E' as <-.
  split; [|reflexivity].
  apply (X10_listener_history loader populate
           [OpRegister e0 "A" "/cmd" (Some "std_msgs/String")]
           [OpPublish e_late "A" "/cmd" "hi"] "/cmd" "/cmd" mp_A); [exact s_A_entry|exact E|].
  reflexivity.
Defined.

(** X11: ["p1"] connected from the start; ["m1"] sent at 5us, ["p2"]
    connects at 10us, ["m2"] sent at 20us: both get ["m1"; "m2"]. *)
Lemma X11_witness :
  exists before after,
    Buffer.b_peers (Buffer.brun (Buffer.BState (attach 0) [("p1", [])])
                      ([Buffer.ESend 5 "m1"] ++ Buffer.EConnect 10 "p2" :: [Buffer.ESend 20 "m2"]))
    = before ++ ("p2", ["m1"; "m2"]) :: after.
Proof.
  destruct (X11_subscriber_delivery 0 [("p1", [])]
              ([Buffer.ESend 5 "m1"] ++ Buffer.EConnect 10 "p2" :: [Buffer.ESend 20 "m2"]))
    as [_ H].
  destruct (H [Buffer.ESend 5 "m1"] 10 "p2" [Buffer.ESend 20 "m2"] eq_refl)
    as (before & after & Hb & _).
  exists before, after. rewrite Hb. reflexivity.
Defined.

(** X12 on [s_A]: ["B"] creates ["/other"]; ["/cmd"] is untouched. *)
Lemma X12_witness :
  publishers (register loader e0 "B" "/other" (Some "std_msgs/Int32") s_A).2 !! "/cmd"
    = Some mp_A.
Proof.
  destruct (X12_register_footprint loader e0 "B" "/other" (Some "std_msgs/Int32") s_A)
    as (_ & _ & _ & Hk).
  rewrite (Hk "/cmd"); [exact s_A_entry|discriminate].
Defined.


End Witnesses.
